(** * MarkdownGov: a shallow embedding of the Markdown-to-Word converter

    The development models [src/src/converter.py] (class
    [MarkdownToWordConverter]) and [src/src/style_detector.py] (class
    [MarkdownStyleDetector]).  Python strings are modelled as [list ascii]
    (code points 0..255); the regular expressions the code uses are
    written out as small matchers that follow Python's [re] semantics
    (leftmost match, non-greedy [.*?], [.] not matching a newline). *)

From Stdlib Require Import Ascii String List Bool Arith Lia ZArith.
Import ListNotations.

Set Warnings "-register-all".

Open Scope list_scope.

(** ** Python strings *)

Abbreviation str := (list ascii).

(** A Python string literal. *)
Definition lit (s : string) : str := list_ascii_of_string s.

Definition ceq (a b : ascii) : bool := Ascii.eqb a b.

(** [a == b] on Python strings. *)
Fixpoint streq (a b : str) : bool :=
  match a, b with
  | [], [] => true
  | x :: a', y :: b' => ceq x y && streq a' b'
  | _, _ => false
  end.

(** [x in xs] for a list or set of strings. *)
Fixpoint str_mem (x : str) (xs : list str) : bool :=
  match xs with
  | [] => false
  | y :: ys => streq x y || str_mem x ys
  end.

(** [str.isspace] restricted to code points 0..255: tab, newline, vertical
    tab, form feed, carriage return, the separators 0x1c..0x1f, space,
    NEL (0x85) and no-break space (0xa0).  This is also what [\s] matches
    in a [str] pattern. *)
Definition is_space (c : ascii) : bool :=
  let n := nat_of_ascii c in
  ((9 <=? n) && (n <=? 13)) || ((28 <=? n) && (n <=? 32))
  || (n =? 133) || (n =? 160).

(** [\d] on code points 0..255. *)
Definition is_digit (c : ascii) : bool :=
  let n := nat_of_ascii c in (48 <=? n) && (n <=? 57).

Fixpoint lstrip (s : str) : str :=
  match s with
  | c :: t => if is_space c then lstrip t else s
  | [] => []
  end.

(** [s.strip()]. *)
Definition strip (s : str) : str := rev (lstrip (rev (lstrip s))).

(** [s.startswith(p)]. *)
Fixpoint startswith (s p : str) : bool :=
  match p, s with
  | [], _ => true
  | x :: p', y :: s' => ceq x y && startswith s' p'
  | _ :: _, [] => false
  end.

(** [str(n)] for a natural number. *)
Fixpoint dec_aux (fuel n : nat) (acc : str) : str :=
  match fuel with
  | O => acc
  | S f =>
      let acc' := ascii_of_nat (48 + n mod 10) :: acc in
      if n <? 10 then acc' else dec_aux f (n / 10) acc'
  end.

Definition py_str_nat (n : nat) : str := dec_aux (S n) n [].

(** [s.replace(old, new)]: every non-overlapping occurrence of a non-empty
    [old], scanned left to right.  [fuel] bounds the number of steps; each
    step consumes at least one character, so [length s] steps suffice. *)
Fixpoint replace_aux (fuel : nat) (old new s : str) : str :=
  match fuel with
  | O => s
  | S f =>
      match s with
      | [] => []
      | c :: t =>
          if startswith s old
          then new ++ replace_aux f old new (skipn (length old) s)
          else c :: replace_aux f old new t
      end
  end.

Definition py_replace (s old new : str) : str :=
  replace_aux (length s) old new s.

(** ** The regular expressions of [_parse_markdown_to_word]

    The patterns [`(.*?)`], [\*\*\*(.*?)\*\*\*], [\*\*(.*?)\*\*] and
    [\*(.*?)\*] all have the shape [D (.*?) D] for a delimiter [D]. *)

(** After an opening [D]: the shortest newline-free text followed by [D],
    with what remains after that closing [D]. *)
Fixpoint find_close (d s : str) : option (str * str) :=
  if startswith s d then Some ([], skipn (length d) s)
  else match s with
       | [] => None
       | x :: t =>
           if ceq x "010"%char then None
           else match find_close d t with
                | Some (c, r) => Some (x :: c, r)
                | None => None
                end
       end.

(** [re.sub(D(.*?)D, repl, s)], [repl] computing the replacement from the
    group. *)
Fixpoint sub_delim (fuel : nat) (d : str) (repl : str -> str) (s : str) : str :=
  match fuel with
  | O => s
  | S f =>
      match s with
      | [] => []
      | x :: t =>
          if startswith s d then
            match find_close d (skipn (length d) s) with
            | Some (cnt, r) => repl cnt ++ sub_delim f d repl r
            | None => x :: sub_delim f d repl t
            end
          else x :: sub_delim f d repl t
      end
  end.

Definition re_sub (d : str) (repl : str -> str) (s : str) : str :=
  sub_delim (length s) d repl s.

(** The replacement [open + \1 + close]. *)
Definition wrap (o c : str) (g : str) : str := o ++ g ++ c.

(** [re.findall(D(.*?)D, s)]: the group of every match. *)
Fixpoint findall_delim (fuel : nat) (d s : str) : list str :=
  match fuel with
  | O => []
  | S f =>
      match s with
      | [] => []
      | x :: t =>
          if startswith s d then
            match find_close d (skipn (length d) s) with
            | Some (cnt, r) => cnt :: findall_delim f d r
            | None => findall_delim f d t
            end
          else findall_delim f d t
      end
  end.

Definition re_findall (d s : str) : list str := findall_delim (length s) d s.

(** The separators of [re.split(r'(<b>|</b>|<i>|</i>)', line)]. *)
Definition tag3 (x y z : ascii) : bool :=
  ceq x "<" && (ceq y "b" || ceq y "i") && ceq z ">".

Definition tag4 (x y z w : ascii) : bool :=
  ceq x "<" && ceq y "/" && (ceq z "b" || ceq z "i") && ceq w ">".

(** [re.split] with a capturing group: the pieces between separators,
    interleaved with the separators themselves.  [acc] holds the current
    piece reversed. *)
Fixpoint split_aux (acc : str) (s : str) : list str :=
  match s with
  | x :: ((y :: ((z :: r3) as r2)) as r1) =>
      if tag3 x y z then rev acc :: [x; y; z] :: split_aux [] r3
      else match r3 with
           | w :: r4 =>
               if tag4 x y z w then rev acc :: [x; y; z; w] :: split_aux [] r4
               else split_aux (x :: acc) r1
           | [] => split_aux (x :: acc) r1
           end
  | x :: r1 => split_aux (x :: acc) r1
  | [] => [rev acc]
  end.

Definition split_tags (s : str) : list str := split_aux [] s.

(** ** Results: a Python call either returns or raises *)

Inductive py_error :=
| KeyError (key : str)
| TypeError
| ValueError
| IndexError
| FileNotFoundError (path : str).

Inductive res (A : Type) :=
| Ok (a : A)
| Err (e : py_error).
Arguments Ok {A} a.
Arguments Err {A} e.

Definition bind {A B} (m : res A) (k : A -> res B) : res B :=
  match m with
  | Ok a => k a
  | Err e => Err e
  end.

Notation "x <- m ;; k" := (bind m (fun x => k))
  (at level 61, m at next level, right associativity).

(** ** python-docx documents *)

Record run := {
  r_text : str;
  r_bold : option bool;
  r_italic : option bool;
  r_style : option str
}.

(** A paragraph; [p_indent] is [left_indent] in quarter inches
    ([Inches(0.25 * k)] is exact in binary floating point). *)
Record para := {
  p_style : option str;
  p_indent : option nat;
  p_runs : list run
}.

(** Values produced by [yaml.safe_load] for the flat front matter the code
    expects: null, strings, mappings with string keys, sequences.  Integers,
    floats, booleans and dates are not modelled (a sequence of integers
    indexes itself: [- 5] raises [IndexError]). *)
Inductive value :=
| YNull
| YStr (s : str)
| YMap (kvs : list (str * value))
| YSeq (l : list value).

Record docx := {
  d_styles : list str;
  d_paras : list para;
  d_title : option value;
  d_author : option value;
  d_subject : option value;
  d_version : option value
}.

Definition set_paras (d : docx) (ps : list para) : docx :=
  {| d_styles := d_styles d; d_paras := ps; d_title := d_title d;
     d_author := d_author d; d_subject := d_subject d; d_version := d_version d |}.

Definition set_styles (d : docx) (ss : list str) : docx :=
  {| d_styles := ss; d_paras := d_paras d; d_title := d_title d;
     d_author := d_author d; d_subject := d_subject d; d_version := d_version d |}.

(** The core properties; python-docx's [ValueError] for a value longer than
    255 characters is not modelled. *)
Definition set_core_title (d : docx) (v : value) : docx :=
  {| d_styles := d_styles d; d_paras := d_paras d; d_title := Some v;
     d_author := d_author d; d_subject := d_subject d; d_version := d_version d |}.

Definition set_core (d : docx) (t a s v : value) : docx :=
  {| d_styles := d_styles d; d_paras := d_paras d; d_title := Some t;
     d_author := Some a; d_subject := Some s; d_version := Some v |}.

(** Looking a style up by name: python-docx raises [KeyError] for a name
    the document does not define.  The [ValueError] it raises for a style of
    the wrong type, and lxml's for control characters in a run's text, are
    not modelled: the statements about [add_paragraph] below are about runs
    that succeed. *)
Definition check_style (d : docx) (name : str) : res unit :=
  if str_mem name (d_styles d) then Ok tt else Err (KeyError name).

Definition plain_run (t : str) : run :=
  {| r_text := t; r_bold := None; r_italic := None; r_style := None |}.

(** [doc.add_paragraph(text, style)]: a run only when [text] is truthy. *)
Definition add_paragraph (d : docx) (text : str) (style : option str)
    (indent : option nat) : res docx :=
  u <- match style with Some s => check_style d s | None => Ok tt end ;;
  Ok (set_paras d (d_paras d ++
        [{| p_style := style; p_indent := indent;
            p_runs := match text with [] => [] | _ => [plain_run text] end |}])).

(** ** [_parse_markdown_to_word] *)

(** [re.match] of the heading pattern [^(#{1,6})\s*] followed by a group [.*]: the number of leading [#]
    (at most six) and group 2, which stops at a newline. *)
Fixpoint take_hashes (k : nat) (s : str) : nat * str :=
  match k, s with
  | S k', c :: t => if ceq c "#" then let (n, r) := take_hashes k' t in (S n, r) else (0, s)
  | _, _ => (0, s)
  end.

Fixpoint take_line (s : str) : str :=
  match s with
  | c :: t => if ceq c "010"%char then [] else c :: take_line t
  | [] => []
  end.

Definition heading_match (line : str) : option (nat * str) :=
  match take_hashes 6 line with
  | (O, _) => None
  | (level, rest) => Some (level, take_line (lstrip rest))
  end.

(** The loop over the tokens of [re.split]. *)
Fixpoint runs_of (toks : list str) (is_bold is_italic : bool) : list run :=
  match toks with
  | [] => []
  | t :: ts =>
      if streq t (lit "<b>") then runs_of ts true is_italic
      else if streq t (lit "</b>") then runs_of ts false is_italic
      else if streq t (lit "<i>") then runs_of ts is_bold true
      else if streq t (lit "</i>") then runs_of ts is_bold false
      else {| r_text := t; r_bold := Some is_bold; r_italic := Some is_italic;
              r_style := None |} :: runs_of ts is_bold is_italic
  end.

Definition code_run (t : str) : run :=
  {| r_text := t; r_bold := None; r_italic := None; r_style := Some (lit "Inline Code") |}.

Definition bq : str := ["`"%char].

(** The line with inline code removed ([line = re.sub(...)] runs only when
    [re.findall] found something). *)
Definition strip_code (line : str) : str :=
  match re_findall bq line with
  | [] => line
  | _ => re_sub bq (fun _ => []) line
  end.

(** The three emphasis substitutions, in the order of the source. *)
Definition emphasis (line : str) : str :=
  let l1 := re_sub (lit "***") (wrap (lit "<b><i>") (lit "</i></b>")) line in
  let l2 := re_sub (lit "**") (wrap (lit "<b>") (lit "</b>")) l1 in
  re_sub (lit "*") (wrap (lit "<i>") (lit "</i>")) l2.

Definition text_runs (line : str) : list run :=
  runs_of (split_tags (emphasis (strip_code line))) false false.

(** The runs added to the paragraph of a (stripped) body line: first one
    code-styled run per inline code span, then the emphasis runs. *)
Definition paragraph_runs (line : str) : list run :=
  map code_run (re_findall bq line) ++ text_runs line.

Definition inline_code : str := lit "Inline Code".

(** One iteration of the loop; [cur] is [current_indent]. *)
Definition parse_line (st : docx * nat) (raw : str) : res (docx * nat) :=
  let '(d, cur) := st in
  let line := strip raw in
  match line with
  | [] => Ok (d, cur)
  | _ =>
      match heading_match line with
      | Some (level, text) =>
          d' <- add_paragraph d text (Some (lit "Heading " ++ py_str_nat level))
                  (Some (level - 1)) ;;
          Ok (d', level - 1)
      | None =>
          Ok (set_paras d (d_paras d ++
                [{| p_style := None; p_indent := Some cur;
                    p_runs := paragraph_runs line |}]), cur)
      end
  end.

Fixpoint parse_lines (lines : list str) (st : docx * nat) : res (docx * nat) :=
  match lines with
  | [] => Ok st
  | l :: ls => st' <- parse_line st l ;; parse_lines ls st'
  end.

Definition parse_markdown_to_word (md_lines : list str) (d : docx) : res docx :=
  let d0 := if str_mem inline_code (d_styles d) then d
            else set_styles d (d_styles d ++ [inline_code]) in
  st <- parse_lines md_lines (d0, 0) ;;
  Ok (fst st).

(** ** Metadata: a Python dict as an association list in insertion order *)

Definition metadata := list (str * value).

Fixpoint dict_get (k : str) (m : metadata) : option value :=
  match m with
  | [] => None
  | (k', v) :: m' => if streq k k' then Some v else dict_get k m'
  end.

(** [m[k] = v]: overwrite in place, or append a new key at the end. *)
Fixpoint dict_set (k : str) (v : value) (m : metadata) : metadata :=
  match m with
  | [] => [(k, v)]
  | (k', v') :: m' => if streq k k' then (k', v) :: m' else (k', v') :: dict_set k v m'
  end.

Definition unassigned : str := lit "-unassigned-".

Definition field_names : list str :=
  [lit "Title"; lit "Document ID"; lit "Facility"; lit "Version";
   lit "Category"; lit "Content"; lit "Author"].

Definition default_metadata : metadata :=
  map (fun k => (k, YStr unassigned)) field_names.

(** The loop of [_extract_metadata] collecting [yaml_content]; [in_yaml]
    is [in_yaml_block]. *)
Fixpoint collect_yaml (in_yaml : bool) (md_lines : list str) : list str :=
  match md_lines with
  | [] => []
  | l :: ls =>
      let line := strip l in
      if streq line (lit "---") then collect_yaml (negb in_yaml) ls
      else if in_yaml then line :: collect_yaml in_yaml ls
      else collect_yaml in_yaml ls
  end.

(** ["\n".join(xs)]. *)
Fixpoint join_nl (xs : list str) : str :=
  match xs with
  | [] => []
  | [x] => x
  | x :: xs' => x ++ ["010"%char] ++ join_nl xs'
  end.

(** What [yaml.safe_load] does: return a value or raise [yaml.YAMLError].
    Its other exceptions (the [ValueError] of an impossible date such as
    [2023-02-30]) are not modelled. *)
Inductive load_result :=
| Loaded (v : value)
| YAMLError.

(** [for key in extracted_metadata: metadata[key] = extracted_metadata[key]].
    Iterating a mapping visits its keys; iterating [None] raises
    [TypeError]; iterating a non-empty string or list yields items that
    cannot index it (strings and lists are indexed by integers), which
    raises [TypeError]. *)
Definition merge_loaded (v : value) (m : metadata) : res metadata :=
  match v with
  | YMap kvs => Ok (fold_left (fun acc '(k, x) => dict_set k x acc) kvs m)
  | YStr [] | YSeq [] => Ok m
  | _ => Err TypeError
  end.

(** [yaml.safe_load] is PyYAML's, not this repository's: it is a parameter
    of the converter; [value_text] is the text python-docx stores for a
    run built from a non-string value and [py_format] is Python's [str()]
    on a value, both library behaviour that no statement below depends
    on. *)
Section Converter.

Variable safe_load : str -> load_result.
Variable value_text : value -> str.
Variable py_format : value -> str.

Definition extract_metadata (md_lines : list str) : res metadata :=
  match collect_yaml false md_lines with
  | [] => Ok default_metadata
  | yaml_content =>
      match safe_load (join_nl yaml_content) with
      | YAMLError => Ok default_metadata
      | Loaded v => merge_loaded v default_metadata
      end
  end.

(** [next_line.startswith("=") and len(next_line) >= 3]. *)
Definition is_underline (next_line : str) : bool :=
  startswith next_line (lit "=") && (3 <=? length next_line).

(** The loop of [_detect_title]; [clean_lines] is the list built so far. *)
Fixpoint detect_title_aux (md_lines clean_lines : list str) (m : metadata)
    : metadata * list str :=
  match md_lines with
  | l :: ((n :: rest) as tl) =>
      let line := strip l in
      let next_line := strip n in
      if is_underline next_line then (dict_set (lit "Title") (YStr line) m, rest)
      else detect_title_aux tl (clean_lines ++ [line]) m
  | _ => (m, clean_lines)
  end.

Definition detect_title (md_lines : list str) (m : metadata) : metadata * list str :=
  detect_title_aux md_lines [] m.

Definition value_str (v : value) : str :=
  match v with
  | YStr s => s
  | YNull => []
  | _ => value_text v
  end.

Definition get_or_default (k : str) (m : metadata) : value :=
  match dict_get k m with Some v => v | None => YStr unassigned end.

Definition labelled (label : string) (k : str) (m : metadata) : str :=
  lit label ++ py_format (get_or_default k m).

(** [_apply_metadata]. *)
Definition apply_metadata (d : docx) (m : metadata) : res docx :=
  let d1 := set_core d (get_or_default (lit "Title") m) (get_or_default (lit "Author") m)
              (get_or_default (lit "Category") m) (get_or_default (lit "Version") m) in
  d2 <- add_paragraph d1 (labelled "Document ID: " (lit "Document ID") m) (Some (lit "Normal")) None ;;
  d3 <- add_paragraph d2 (labelled "Facility: " (lit "Facility") m) (Some (lit "Normal")) None ;;
  add_paragraph d3 (labelled "Content Category: " (lit "Content") m) (Some (lit "Normal")) None.

Definition is_unassigned (v : value) : bool :=
  match v with YStr s => streq s unassigned | _ => false end.

(** [convert] from the template document [doc] and the result of
    [md_file.readlines()]; the output file name and [doc.save] are left
    out. *)
Definition convert (doc : docx) (md_content : list str) : res docx :=
  m0 <- extract_metadata md_content ;;
  t0 <- match dict_get (lit "Title") m0 with
        | Some v => Ok v | None => Err (KeyError (lit "Title")) end ;;
  let '(m, clean_md_content) :=
    if is_unassigned t0 then detect_title md_content m0 else (m0, md_content) in
  title_text <- match dict_get (lit "Title") m with
                | Some v => Ok v | None => Err (KeyError (lit "Title")) end ;;
  d1 <- add_paragraph doc (value_str title_text) (Some (lit "Title")) None ;;
  let d2 := set_core_title d1 title_text in
  d3 <- parse_markdown_to_word clean_md_content d2 ;;
  apply_metadata d3 m.

End Converter.

(** ** [MarkdownStyleDetector] *)

(** The detector object: [self.required_styles] (a Python set, kept as a
    duplicate-free list; its iteration order is not observable in the
    statements below) and [self.current_level]. *)
Record detector := {
  required_styles : list str;
  current_level : nat
}.

(** [MarkdownStyleDetector()]. *)
Definition new_detector : detector :=
  {| required_styles := []; current_level := 1 |}.

(** [s.add(x)]. *)
Definition set_add (x : str) (s : list str) : list str :=
  if str_mem x s then s else s ++ [x].

(** [re.match(r'^[-*+]\s+', line)]. *)
Definition bullet_marker (line : str) : bool :=
  match line with
  | c :: d :: _ => (ceq c "-" || ceq c "*" || ceq c "+") && is_space d
  | _ => false
  end.

(** [re.match(r'^\d+\.\s+', line)]; [seen] records that a digit was read. *)
Fixpoint number_marker_aux (seen : bool) (s : str) : bool :=
  match s with
  | c :: t =>
      if is_digit c then number_marker_aux true t
      else if ceq c "." then
        seen && match t with d :: _ => is_space d | [] => false end
      else false
  | [] => false
  end.

Definition number_marker (line : str) : bool := number_marker_aux false line.

(** [re.search] for a backtick, at least one character other than a
    newline (non-greedy), then a backtick. *)
Fixpoint close_tick (s : str) : bool :=
  match s with
  | y :: v => ceq y "`" || (negb (ceq y "010"%char) && close_tick v)
  | [] => false
  end.

Fixpoint has_code_span (s : str) : bool :=
  match s with
  | c :: t =>
      (ceq c "`" && match t with
                    | x :: u => negb (ceq x "010"%char) && close_tick u
                    | [] => false
                    end)
      || has_code_span t
  | [] => false
  end.

Definition add_req (x : str) (st : detector) : detector :=
  {| required_styles := set_add x (required_styles st); current_level := current_level st |}.

(** One iteration of the loop of [scan_markdown_styles]. *)
Definition scan_line (st : detector) (raw : str) : detector :=
  let line := strip raw in
  match line with
  | [] => st
  | _ =>
      match heading_match line with
      | Some (level, _) =>
          {| required_styles := set_add (lit "Heading " ++ py_str_nat level) (required_styles st);
             current_level := level |}
      | None =>
          if bullet_marker line then add_req (lit "List Bullet") st
          else if number_marker line then add_req (lit "List Number") st
          else if startswith line (lit ">") then add_req (lit "Quote") st
          else if has_code_span line then add_req (lit "Code") st
          else add_req (lit "Body Text " ++ py_str_nat (current_level st)) st
      end
  end.

(** [scan_markdown_styles] on the lines of the file: [required_styles] is
    cleared, [current_level] is kept. *)
Definition scan_markdown_styles (st : detector) (lines : list str) : detector :=
  fold_left scan_line lines
    {| required_styles := []; current_level := current_level st |}.

(** *** Templates and the file system *)

Record style_def := {
  s_name : str;
  s_bold : option bool;
  s_italic : option bool;
  s_size_pt : option Z;
  s_font : option str;
  s_left_indent_pt : option Z;
  s_align_left : bool
}.

(** A Word template package: its styles, the names in its latent-style
    table, and whether its main part has the content type of a Word
    document ([.docx]): [Document()] raises [ValueError] for any other
    package, a [.dotx] or [.dotm] template included. *)
Record template := {
  t_styles : list style_def;
  t_latent : list str;
  t_word_document : bool
}.

(** The template files on disk, by path. *)
Definition files := str -> option template.

Definition fs_update (fs : files) (p : str) (t : template) : files :=
  fun q => if streq q p then Some t else fs q.

(** [get_all_styles]: the names of the styles.  The loop over the latent
    styles adds nothing: [style_id.get("w:styleName")] asks for an attribute
    the latent-style elements never carry (theirs is [w:name], and lxml
    reads a prefixed name only in its [{namespace}name] form), so it always
    returns [None]. *)
Definition get_all_styles (t : template) : list str :=
  map s_name (t_styles t).

(** [s.split(" ")]. *)
Fixpoint split_space_aux (acc : str) (s : str) : list str :=
  match s with
  | [] => [rev acc]
  | c :: t => if ceq c " " then rev acc :: split_space_aux [] t
              else split_space_aux (c :: acc) t
  end.

Definition split_space (s : str) : list str := split_space_aux [] s.

Definition digit_val (c : ascii) : Z := Z.of_nat (nat_of_ascii c - 48).

(** The digits of [int(s)], with single underscores allowed between
    digits. *)
Fixpoint int_digits (s : str) (acc : Z) (after_us : bool) : option Z :=
  match s with
  | [] => if after_us then None else Some acc
  | c :: t =>
      if is_digit c then int_digits t (acc * 10 + digit_val c) false
      else if ceq c "_" then (if after_us then None else int_digits t acc true)
      else None
  end.

(** [int(s)] on a string: optional surrounding whitespace and sign, then
    decimal digits; [ValueError] otherwise. *)
Definition py_int (s : str) : res Z :=
  let body := strip s in
  let '(sign, ds) := match body with
                     | c :: t => if ceq c "-" then (-1, t)%Z
                                 else if ceq c "+" then (1, t)%Z else (1, body)%Z
                     | [] => (1, body)%Z
                     end in
  match ds with
  | c :: _ => if is_digit c then
                match int_digits ds 0 false with
                | Some n => Ok (sign * n)%Z
                | None => Err ValueError
                end
              else Err ValueError
  | [] => Err ValueError
  end.

(** [styles.add_style(name, 1)]: [ValueError] for a name already present. *)
Definition add_style (t : template) (sd : style_def) : res template :=
  if str_mem (s_name sd) (map s_name (t_styles t)) then Err ValueError
  else Ok {| t_styles := t_styles t ++ [sd]; t_latent := t_latent t;
             t_word_document := t_word_document t |}.

Definition blank_style (name : str) : style_def :=
  {| s_name := name; s_bold := None; s_italic := None; s_size_pt := None;
     s_font := None; s_left_indent_pt := None; s_align_left := false |}.

(** [_create_style]; a name of no known family creates nothing. *)
Definition create_style (t : template) (name : str) : res template :=
  if startswith name (lit "Heading") then
    lv <- match nth_error (split_space name) 1 with
          | Some w => Ok w | None => Err IndexError end ;;
    level <- py_int lv ;;
    t' <- add_style t {| s_name := name; s_bold := Some true; s_italic := None;
                         s_size_pt := Some (16 - level * 2)%Z; s_font := None;
                         s_left_indent_pt := None; s_align_left := true |} ;;
    (* [font.size = Pt(...)]: the size is an unsigned [w:sz], python-docx
       raises [ValueError] for a negative one *)
    if (16 - level * 2 <? 0)%Z then Err ValueError else Ok t'
  else if startswith name (lit "Body Text") then
    add_style t {| s_name := name; s_bold := None; s_italic := None;
                   s_size_pt := Some 11%Z; s_font := None;
                   s_left_indent_pt := None; s_align_left := true |}
  else if streq name (lit "Quote") then
    add_style t {| s_name := name; s_bold := None; s_italic := Some true;
                   s_size_pt := Some 11%Z; s_font := None;
                   s_left_indent_pt := Some 15%Z; s_align_left := true |}
  else if streq name (lit "List Bullet") then
    add_style t {| s_name := name; s_bold := None; s_italic := None;
                   s_size_pt := None; s_font := None;
                   s_left_indent_pt := Some 10%Z; s_align_left := false |}
  else if streq name (lit "List Number") then
    add_style t {| s_name := name; s_bold := None; s_italic := None;
                   s_size_pt := None; s_font := None;
                   s_left_indent_pt := Some 10%Z; s_align_left := false |}
  else if streq name (lit "Code") then
    add_style t {| s_name := name; s_bold := None; s_italic := None;
                   s_size_pt := Some 10%Z; s_font := Some (lit "Courier New");
                   s_left_indent_pt := None; s_align_left := true |}
  else Ok t.

Fixpoint create_all (t : template) (names : list str) : res template :=
  match names with
  | [] => Ok t
  | n :: ns => t' <- create_style t n ;; create_all t' ns
  end.

Definition missing_styles (st : detector) (t : template) : list str :=
  let existing := get_all_styles t in
  filter (fun s => negb (str_mem s existing)) (required_styles st).

Definition updated_path (template_path : str) : str :=
  py_replace (py_replace template_path (lit ".dotx") (lit "_updated.dotx"))
    (lit ".dotm") (lit "_updated.dotm").

(** [ensure_styles_exist]: the new file system and the returned path.  A
    locked file ([PermissionError]) is not modelled; [Document()] on a
    package that is not a Word document raises [ValueError]. *)
Definition ensure_styles_exist (st : detector) (fs : files) (template_path : str)
    : res (files * str) :=
  match fs template_path with
  | None => Err (FileNotFoundError template_path)
  | Some t =>
      if negb (t_word_document t) then Err ValueError else
      t' <- create_all t (missing_styles st t) ;;
      let p := updated_path template_path in
      Ok (fs_update fs p t', p)
  end.

(** ** Sample inputs *)

(** A loader for the flat front matter of the examples below: text made of
    blank lines loads as null (as PyYAML does), lines [key: value] load as
    a mapping of strings. *)
Fixpoint split_colon (acc : str) (s : str) : option (str * str) :=
  match s with
  | c :: t => if ceq c ":" then Some (rev acc, t) else split_colon (c :: acc) t
  | [] => None
  end.

Fixpoint split_lines_aux (acc : str) (s : str) : list str :=
  match s with
  | [] => [rev acc]
  | c :: t => if ceq c "010"%char then rev acc :: split_lines_aux [] t
              else split_lines_aux (c :: acc) t
  end.

Definition sample_safe_load (text : str) : load_result :=
  let ls := filter (fun l => negb (streq (strip l) [])) (split_lines_aux [] text) in
  match ls with
  | [] => Loaded YNull
  | _ =>
      let kvs := map (fun l => match split_colon [] l with
                               | Some (k, v) => Some (strip k, YStr (strip v))
                               | None => None
                               end) ls in
      if forallb (fun o => match o with Some _ => true | None => false end) kvs
      then Loaded (YMap (flat_map (fun o => match o with Some p => [p] | None => [] end) kvs))
      else YAMLError
  end.

Definition sample_text (_ : value) : str := [].
Definition sample_format (v : value) : str := value_str sample_text v.

(** A template document with the styles the converter asks for. *)
Definition sample_doc : docx :=
  {| d_styles := [lit "Normal"; lit "Title"; lit "Heading 1"; lit "Heading 2"];
     d_paras := []; d_title := None; d_author := None; d_subject := None;
     d_version := None |}.

(** ** Reading the runs back

    [untag] deletes the separators exactly where [re.split] finds them: the
    concatenated text of the runs of a paragraph is [untag] of the
    substituted line. *)
Fixpoint untag (s : str) : str :=
  match s with
  | x :: ((y :: ((z :: r3) as r2)) as r1) =>
      if tag3 x y z then untag r3
      else match r3 with
           | w :: r4 => if tag4 x y z w then untag r4 else x :: untag r1
           | [] => x :: untag r1
           end
  | x :: r1 => x :: untag r1
  | [] => []
  end.

(** [re.split] finds a separator at the start of [s]. *)
Definition starts_tag (s : str) : bool :=
  match s with
  | x :: y :: z :: r => tag3 x y z || match r with w :: _ => tag4 x y z w | [] => false end
  | _ => false
  end.

(** No separator occurs anywhere in [s]. *)
Fixpoint tag_free (s : str) : bool :=
  match s with
  | [] => true
  | x :: t => negb (starts_tag (x :: t)) && tag_free t
  end.

(** A token the loop of [_parse_markdown_to_word] treats as a separator. *)
Definition is_tag_tok (t : str) : bool :=
  streq t (lit "<b>") || streq t (lit "</b>") || streq t (lit "<i>") || streq t (lit "</i>").

Definition nontag (t : str) : bool := negb (is_tag_tok t).

Definition nonstar (c : ascii) : bool := negb (ceq c "*").

(** The text of a string once separators and asterisks are deleted. *)
Definition visible (s : str) : str := filter nonstar (untag s).

Definition is_plain_run (r : run) : bool :=
  match r_style r with None => true | Some _ => false end.

Definition run_text (rs : list run) : str := concat (map r_text rs).

Definition c1_line : str := lit "a `x` b".

(** ** Sample inputs and auxiliary predicates *)

Definition c6_lines : list str := [lit "Intro"; lit "## H"].

Definition c8_template : template := {| t_styles := []; t_latent := []; t_word_document := true |}.

Definition c8_files : files :=
  fun p => if streq p (lit "template.docx") then Some c8_template else None.

Definition c8_detector : detector :=
  scan_markdown_styles new_detector [lit "> quoted"].

Definition c4_lines : list str :=
  [lit "---"; lit "Title: X"; lit "---"; lit "body"; lit "---"; lit "Author: Y"].

Definition is_delim (l : str) : bool := streq (strip l) (lit "---").

Definition ndelims (ls : list str) : nat := length (filter is_delim ls).

Definition c2_lines : list str := [lit "intro"; lit "Report"; lit "======"; lit "# A"].

(** The style names [_create_style] knows how to create. *)
Definition known_family (n : str) : bool :=
  startswith n (lit "Heading") || startswith n (lit "Body Text")
  || streq n (lit "Quote") || streq n (lit "List Bullet")
  || streq n (lit "List Number") || streq n (lit "Code").

Definition style_names (t : template) : list str := map s_name (t_styles t).

Definition c7_lines : list str := [lit "# Doc"; lit "Body"; lit "> q"; lit "`x` y"].

Definition c10_md : list str := [lit "# Intro"; lit "Hello **world**."].

(** A separator cannot straddle a boundary followed by [<] or [*]. *)
Definition breaks (v : str) : Prop :=
  match v with [] => True | h :: _ => h = "<"%char \/ h = "*"%char end.

Ltac tag_false :=
  unfold tag3, tag4; cbn [ceq Ascii.eqb Bool.eqb];
  rewrite ?andb_false_r, ?andb_false_l; cbn [andb orb].

Definition stars (d : str) : bool := forallb (fun c => ceq c "*") d.

Definition c1_code_line : str := lit "Run `make` for ***all*** of *it*.".




(** A line [_parse_markdown_to_word] does not skip. *)
Definition nonblank (l : str) : bool :=
  match strip l with [] => false | _ => true end.

(** The level of a heading line. *)
Definition heading_level (l : str) : option nat :=
  match heading_match (strip l) with Some (n, _) => Some n | None => None end.

(** The level of the last heading line of [ls]. *)
Fixpoint last_heading (ls : list str) : option nat :=
  match ls with
  | [] => None
  | l :: ls' =>
      match last_heading ls' with
      | Some n => Some n
      | None => heading_level l
      end
  end.

Definition heading_style (n : nat) : str := lit "Heading " ++ py_str_nat n.

(** ** Inputs and predicates of the further properties *)

Definition x_doc_no_h3 : docx := sample_doc.

Definition x_indent_lines : list str := [lit "# A"; lit "## B"; lit "x"; []; lit "y"].

Definition x_plain_md : list str := [lit "# Doc"; lit "Some text"; lit "- - -"].

Definition x_front_md : list str :=
  [lit "---"; lit "Title: Report"; lit "Author: Ann"; lit "Title: Final"; lit "---"; lit "Body"].

(** A paragraph [_apply_metadata] adds: style [Normal], one plain run. *)
Definition normal_para (text : str) : para :=
  {| p_style := Some (lit "Normal"); p_indent := None; p_runs := [plain_run text] |}.

Definition x_latent_template : template :=
  {| t_styles := [blank_style (lit "Normal")]; t_latent := [lit "Quote"];
     t_word_document := true |}.

Definition x_latent_files : files :=
  fun q => if streq q (lit "base.dotx") then Some x_latent_template else None.

Definition x_latent_lines : list str := [lit "# Title"; lit "> quoted"].

(** [old in s] for a non-empty [old]: some suffix of [s] starts with it. *)
Fixpoint occurs (old s : str) : bool :=
  match s with
  | [] => startswith [] old
  | _ :: t => startswith s old || occurs old t
  end.

(** [s] has no [.] in it. *)
Definition no_dot (s : str) : bool := forallb (fun c => negb (ceq c ".")) s.

Definition x_dotx_files : files :=
  fun q => if streq q (lit "report.dotx") then Some x_latent_template else None.

Definition x_docx_files : files :=
  fun q => if streq q (lit "base.docx") then Some x_latent_template else None.

(** One step of reading decimal digits, as [int_digits] does. *)
Definition digit_step (a : Z) (c : ascii) : Z := (a * 10 + digit_val c)%Z.

Definition x_heading_lines : list str := [lit "Intro"; lit "## **Scope** `x`"].

Definition x_bad_yaml_md : list str := [lit "---"; lit "just text"; lit "---"; lit "Body"].


(** ** Basic facts *)

Lemma ceq_spec (a b : ascii) : ceq a b = true <-> a = b.
Proof. unfold ceq. apply Ascii.eqb_eq. Qed.

Lemma ceq_refl (a : ascii) : ceq a a = true.
Proof. apply ceq_spec; reflexivity. Qed.

Lemma streq_spec (a b : str) : streq a b = true <-> a = b.
Proof.
  revert b; induction a as [|x a IH]; intros [|y b]; simpl;
    try (split; congruence).
  rewrite andb_true_iff, ceq_spec, IH; split.
  - intros [-> ->]; reflexivity.
  - intros H; injection H; auto.
Qed.

Lemma streq_refl (a : str) : streq a a = true.
Proof. apply streq_spec; reflexivity. Qed.

Lemma str_mem_In (x : str) (xs : list str) : str_mem x xs = true <-> In x xs.
Proof.
  induction xs as [|y ys IH]; simpl.
  - split; [discriminate | tauto].
  - rewrite orb_true_iff, streq_spec, IH; split; intros [H|H]; auto.
Qed.

(** ** C6: the scan keeps [current_level] across runs *)

(** C6 (code_bug): scanning [Intro] / [## H] twice with one detector gives
    [Body Text 1] the first time and [Body Text 2] the second time, since
    [current_level] is not reset. *)
Lemma scan_twice_differs :
  let st1 := scan_markdown_styles new_detector c6_lines in
  let st2 := scan_markdown_styles st1 c6_lines in
  required_styles st1 = [lit "Body Text 1"; lit "Heading 2"] /\
  required_styles st2 = [lit "Body Text 2"; lit "Heading 2"] /\
  required_styles st1 <> required_styles st2.
Proof. vm_compute. split; [reflexivity | split; [reflexivity | discriminate]]. Qed.

(** ** C8: a [.docx] template is saved over itself *)

(** C8 (code_bug): for [template.docx] the returned path is the caller's
    path and the file stored there changes. *)
Lemma ensure_overwrites_docx :
  match ensure_styles_exist c8_detector c8_files (lit "template.docx") with
  | Ok (fs', p) => p = lit "template.docx" /\ fs' p <> c8_files p
  | Err _ => False
  end.
Proof. vm_compute. split; [reflexivity | discriminate]. Qed.

(** ** C3: without a title the last line is lost *)

(** C3 (code_bug): with no underline pair, [_detect_title] on [a] / [b]
    returns only [a]. *)
Lemma detect_title_drops_last :
  detect_title [lit "a"; lit "b"] default_metadata = (default_metadata, [lit "a"]).
Proof. reflexivity. Qed.

(** ** C5: front matter that is not a mapping raises [TypeError] *)

(** C5 (code_bug): a front-matter block holding one blank line loads as
    null (PyYAML's [safe_load("")] is [None]); iterating it raises
    [TypeError], which [_extract_metadata] does not catch. *)
Theorem extract_metadata_blank_front_matter (safe_load : str -> load_result)
    (Hnull : safe_load [] = Loaded YNull) :
  extract_metadata safe_load [lit "---"; []; lit "---"] = Err TypeError.
Proof. unfold extract_metadata. vm_compute. rewrite Hnull. reflexivity. Qed.

Lemma extract_metadata_blank_front_matter_witness :
  sample_safe_load [] = Loaded YNull /\
  extract_metadata sample_safe_load [lit "---"; []; lit "---"] = Err TypeError.
Proof.
  split; [reflexivity |].
  apply extract_metadata_blank_front_matter. reflexivity.
Defined.

(** ** C4: every delimiter line toggles collection *)

(** C4 (counterexample): after the second delimiter closes the block, a
    third delimiter opens collection again: [Author: Y] is collected. *)
Lemma collect_yaml_reopens :
  collect_yaml false c4_lines = [lit "Title: X"; lit "Author: Y"].
Proof. reflexivity. Qed.

Lemma flat_map_map_S {B} (f : nat -> list B) (xs : list nat) :
  flat_map f (map S xs) = flat_map (fun i => f (S i)) xs.
Proof. induction xs as [|x xs IH]; simpl; [reflexivity | now rewrite IH]. Qed.

Lemma collect_yaml_parity (b : bool) (ls : list str) :
  collect_yaml b ls =
  flat_map (fun i => let l := nth i ls [] in
                     if negb (is_delim l) && xorb b (Nat.odd (ndelims (firstn i ls)))
                     then [strip l] else [])
           (seq 0 (length ls)).
Proof.
  revert b; induction ls as [|l ls IH]; intros b; [reflexivity |].
  cbn [length]. rewrite <- cons_seq, <- seq_shift.
  cbn [flat_map]. rewrite flat_map_map_S.
  cbn [collect_yaml nth firstn].
  unfold ndelims at 1; cbn [filter length].
  change (streq (strip l) (lit "---")) with (is_delim l).
  destruct (is_delim l) eqn:Hd; cbn [negb andb app].
  - rewrite IH. apply flat_map_ext. intros i.
    unfold ndelims; cbn [filter]. rewrite Hd. cbn [length].
    rewrite Nat.odd_succ, <- Nat.negb_odd.
    destruct b, (Nat.odd _); reflexivity.
  - rewrite xorb_false_r.
    destruct b; cbn [app]; rewrite IH; [apply (f_equal (cons _)) |];
      apply flat_map_ext; intros i;
      unfold ndelims; cbn [filter]; rewrite Hd; reflexivity.
Qed.

(** C4 (amended): every line that is [---] after trimming toggles
    collection; the collected lines are exactly the trimmed lines that are
    not delimiters and are preceded by an odd number of delimiter lines
    (between the first and second delimiter, the third and fourth, and so
    on, and after an unmatched last one), in order. *)
Theorem collect_yaml_odd_regions (md_lines : list str) :
  collect_yaml false md_lines =
  flat_map (fun i => let l := nth i md_lines [] in
                     if negb (is_delim l) && Nat.odd (ndelims (firstn i md_lines))
                     then [strip l] else [])
           (seq 0 (length md_lines)).
Proof. apply collect_yaml_parity. Qed.

(** ** C2: title detection *)

(** C2 (code bug): in [intro] / [Report] / [======] / [# A] the pair
    [Report] / [======] sets the title, but [_detect_title] returns only the
    lines after the pair: [intro], which is not part of it, is lost. *)
Lemma detect_title_drops_before :
  detect_title c2_lines default_metadata =
  (dict_set (lit "Title") (YStr (lit "Report")) default_metadata, [lit "# A"]).
Proof. reflexivity. Qed.

Lemma detect_title_aux_first_pair (i : nat) :
  forall (md_lines clean : list str) (m : metadata),
  S i < length md_lines ->
  (forall j, j < i -> is_underline (strip (nth (S j) md_lines [])) = false) ->
  is_underline (strip (nth (S i) md_lines [])) = true ->
  detect_title_aux md_lines clean m =
  (dict_set (lit "Title") (YStr (strip (nth i md_lines []))) m, skipn (S (S i)) md_lines).
Proof.
  induction i as [|i IH]; intros md_lines clean m Hlen Hfirst Hhit.
  - destruct md_lines as [|l [|n rest]]; cbn in Hlen; try lia.
    cbn [nth] in Hhit. cbn [detect_title_aux]. rewrite Hhit. reflexivity.
  - destruct md_lines as [|l [|n rest]]; cbn in Hlen; try lia.
    pose proof (Hfirst 0 ltac:(lia)) as H0. cbn [nth] in H0.
    cbn [detect_title_aux]. rewrite H0.
    apply (IH (n :: rest)).
    + cbn in Hlen |- *; lia.
    + intros j Hj. apply (Hfirst (S j)); lia.
    + exact Hhit.
Qed.

(** [_detect_title] stops at the first pair whose second line, trimmed,
    starts with [=] and has length at least 3 (the first line may be blank
    and the underline need not be all [=]): the title is the first line of
    the pair, trimmed, and only the lines after the pair are returned,
    unchanged; the lines before it are dropped. *)
Theorem detect_title_first_pair (md_lines : list str) (m : metadata) (i : nat)
    (Hlen : S i < length md_lines)
    (Hfirst : forall j, j < i -> is_underline (strip (nth (S j) md_lines [])) = false)
    (Hhit : is_underline (strip (nth (S i) md_lines [])) = true) :
  detect_title md_lines m =
  (dict_set (lit "Title") (YStr (strip (nth i md_lines []))) m, skipn (S (S i)) md_lines).
Proof. apply detect_title_aux_first_pair; assumption. Qed.

Lemma detect_title_first_pair_witness :
  detect_title [lit "intro"; lit "Report"; lit "======"; lit "# A"] default_metadata =
  (dict_set (lit "Title") (YStr (lit "Report")) default_metadata, [lit "# A"]).
Proof.
  rewrite (detect_title_first_pair _ _ 1).
  - reflexivity.
  - simpl; lia.
  - intros j Hj. assert (j = 0) as -> by lia. reflexivity.
  - reflexivity.
Defined.

(** ** C7: reconciliation covers the required styles *)

Lemma add_style_ok (t t' : template) (sd : style_def) :
  add_style t sd = Ok t' ->
  style_names t' = style_names t ++ [s_name sd] /\ t_latent t' = t_latent t.
Proof.
  unfold add_style, style_names. destruct (str_mem _ _); intros H; [discriminate|].
  injection H as <-. simpl. rewrite map_app. split; reflexivity.
Qed.

Lemma set_add_In (x y : str) (s : list str) : In y (set_add x s) -> y = x \/ In y s.
Proof.
  unfold set_add. destruct (str_mem x s); [auto|].
  intros H; apply in_app_or in H as [H|[H|[]]]; auto.
Qed.

Lemma create_style_spec (t t' : template) (n : str) :
  create_style t n = Ok t' ->
  t_latent t' = t_latent t /\
  (forall x, In x (style_names t) -> In x (style_names t')) /\
  (known_family n = true -> In n (style_names t')).
Proof.
  intros H.
  assert (Hadd : forall sd, s_name sd = n -> add_style t sd = Ok t' ->
            t_latent t' = t_latent t /\
            (forall x, In x (style_names t) -> In x (style_names t')) /\
            (known_family n = true -> In n (style_names t'))).
  { intros sd Hn Ha. apply add_style_ok in Ha as [Hs Hl].
    rewrite Hs, Hn, Hl. split; [reflexivity | split].
    - intros x Hx; apply in_or_app; auto.
    - intros _; apply in_or_app; right; left; reflexivity. }
  unfold create_style in H.
  destruct (startswith n (lit "Heading")) eqn:E1.
  { destruct (nth_error (split_space n) 1) as [w|]; cbn [bind] in H; [|discriminate].
    destruct (py_int w) as [lv|]; cbn [bind] in H; [|discriminate].
    destruct (add_style t _) as [t1|e] eqn:Ea; cbn [bind] in H; [|discriminate].
    destruct (_ <? 0)%Z; [discriminate|]. injection H as <-.
    (eapply Hadd; [| exact Ea]; reflexivity). }
  destruct (startswith n (lit "Body Text")) eqn:E2; [(eapply Hadd; [| exact H]; reflexivity)|].
  destruct (streq n (lit "Quote")) eqn:E3; [(eapply Hadd; [| exact H]; reflexivity)|].
  destruct (streq n (lit "List Bullet")) eqn:E4; [(eapply Hadd; [| exact H]; reflexivity)|].
  destruct (streq n (lit "List Number")) eqn:E5; [(eapply Hadd; [| exact H]; reflexivity)|].
  destruct (streq n (lit "Code")) eqn:E6; [(eapply Hadd; [| exact H]; reflexivity)|].
  injection H as <-. split; [reflexivity | split; [auto|]].
  unfold known_family. rewrite E1, E2, E3, E4, E5, E6. discriminate.
Qed.

Lemma create_all_spec (ns : list str) :
  forall t t', create_all t ns = Ok t' ->
  t_latent t' = t_latent t /\
  (forall x, In x (style_names t) -> In x (style_names t')) /\
  (forall n, In n ns -> known_family n = true -> In n (style_names t')).
Proof.
  induction ns as [|n ns IH]; intros t t' H.
  - injection H as <-. split; [reflexivity | split; [auto | intros n []]].
  - cbn in H. destruct (create_style t n) as [t1|] eqn:E; [|discriminate].
    apply create_style_spec in E as [Hl1 [Hm1 Hk1]].
    apply IH in H as [Hl2 [Hm2 Hk2]].
    split; [congruence | split; [auto|]].
    intros n' [<-|Hin] Hk; auto.
Qed.

Lemma scan_line_known (st : detector) (raw : str) :
  (forall r, In r (required_styles st) -> known_family r = true) ->
  forall r, In r (required_styles (scan_line st raw)) -> known_family r = true.
Proof.
  intros Hst r. unfold scan_line.
  destruct (strip raw) as [|c cs]; [apply Hst|].
  destruct (heading_match (c :: cs)) as [[level text]|].
  { cbn [required_styles]. intros Hr. apply set_add_In in Hr as [->|Hr]; [reflexivity | auto]. }
  unfold add_req.
  destruct (bullet_marker _); [cbn [required_styles]; intros Hr;
    apply set_add_In in Hr as [->|Hr]; [reflexivity | auto]|].
  destruct (number_marker _); [cbn [required_styles]; intros Hr;
    apply set_add_In in Hr as [->|Hr]; [reflexivity | auto]|].
  destruct (startswith _ _); [cbn [required_styles]; intros Hr;
    apply set_add_In in Hr as [->|Hr]; [reflexivity | auto]|].
  destruct (has_code_span _); cbn [required_styles]; intros Hr;
    apply set_add_In in Hr as [->|Hr]; [reflexivity | auto | reflexivity | auto].
Qed.

Lemma scan_known (st : detector) (lines : list str) :
  forall r, In r (required_styles (scan_markdown_styles st lines)) -> known_family r = true.
Proof.
  unfold scan_markdown_styles.
  assert (Hgen : forall ls st0,
            (forall r, In r (required_styles st0) -> known_family r = true) ->
            forall r, In r (required_styles (fold_left scan_line ls st0)) ->
                      known_family r = true).
  { induction ls as [|l ls IH]; intros st0 H0; [exact H0|].
    cbn. apply IH. apply scan_line_known. exact H0. }
  apply Hgen. intros r [].
Qed.

(** C7: after [ensure_styles_exist] on the set computed by
    [scan_markdown_styles], the template at the returned path lists every
    required style, and reconciling against it again finds nothing
    missing. *)
Theorem ensure_styles_complete (st : detector) (lines : list str)
    (fs fs' : files) (path p : str) :
  ensure_styles_exist (scan_markdown_styles st lines) fs path = Ok (fs', p) ->
  exists t', fs' p = Some t' /\
    (forall r, In r (required_styles (scan_markdown_styles st lines)) ->
               In r (get_all_styles t')) /\
    missing_styles (scan_markdown_styles st lines) t' = [].
Proof.
  set (st' := scan_markdown_styles st lines).
  unfold ensure_styles_exist.
  destruct (fs path) as [t|]; [|discriminate].
  destruct (t_word_document t); cbn [negb]; [|intros H; discriminate H].
  destruct (create_all t (missing_styles st' t)) as [t'|] eqn:E; cbn; [|discriminate].
  intros H. injection H as <- <-.
  apply create_all_spec in E as [_ [Hm Hk]].
  assert (Hall : forall r, In r (required_styles st') -> In r (get_all_styles t')).
  { intros r Hr. unfold get_all_styles. fold (style_names t').
    destruct (str_mem r (get_all_styles t)) eqn:Ex.
    - apply str_mem_In in Ex. apply Hm. exact Ex.
    - apply Hk.
      + unfold missing_styles. apply filter_In. rewrite Ex. split; [exact Hr | reflexivity].
      + apply (scan_known st lines). exact Hr. }
  exists t'. split; [unfold fs_update; rewrite streq_refl; reflexivity|].
  split; [exact Hall|].
  unfold missing_styles.
  rewrite (filter_ext_in _ (fun _ => false)); [apply filter_false|].
  intros r Hr. apply Hall, str_mem_In in Hr. rewrite Hr. reflexivity.
Qed.

Lemma ensure_styles_complete_witness :
  exists fs' p,
    ensure_styles_exist (scan_markdown_styles new_detector c7_lines) c8_files
      (lit "template.docx") = Ok (fs', p) /\
    exists t', fs' p = Some t' /\
      (forall r, In r (required_styles (scan_markdown_styles new_detector c7_lines)) ->
                 In r (get_all_styles t')) /\
      missing_styles (scan_markdown_styles new_detector c7_lines) t' = [].
Proof.
  destruct (ensure_styles_exist (scan_markdown_styles new_detector c7_lines) c8_files
              (lit "template.docx")) as [[fs' p]|e] eqn:E.
  - exists fs', p. split; [reflexivity|].
    eapply ensure_styles_complete. exact E.
  - vm_compute in E. discriminate.
Defined.

(** ** C10: the sentinel title *)

Lemma add_paragraph_ok (d d' : docx) (text : str) (style : option str) (ind : option nat) :
  add_paragraph d text style ind = Ok d' ->
  d_paras d' = d_paras d ++
    [{| p_style := style; p_indent := ind;
        p_runs := match text with [] => [] | _ => [plain_run text] end |}] /\
  d_title d' = d_title d.
Proof.
  unfold add_paragraph. destruct style as [s|].
  - unfold check_style. destruct (str_mem s (d_styles d)); cbn [bind]; [|discriminate].
    intros H; injection H as <-. split; reflexivity.
  - cbn [bind]. intros H; injection H as <-. split; reflexivity.
Qed.

Lemma parse_lines_prefix (ls : list str) :
  forall d c d' c', parse_lines ls (d, c) = Ok (d', c') ->
  (exists ps, d_paras d' = d_paras d ++ ps) /\ d_title d' = d_title d.
Proof.
  induction ls as [|l ls IH]; intros d c d' c' H.
  - injection H as <- <-. split; [exists []; symmetry; apply app_nil_r | reflexivity].
  - cbn [parse_lines] in H.
    destruct (parse_line (d, c) l) as [[d1 c1]|] eqn:E; cbn [bind] in H; [|discriminate].
    apply IH in H as [[ps Hps] Ht].
    unfold parse_line in E.
    destruct (strip l) as [|ch cs].
    + injection E as <- <-. split; [exists ps; exact Hps | exact Ht].
    + destruct (heading_match (ch :: cs)) as [[level text]|].
      * destruct (add_paragraph _ _ _ _) as [d2|] eqn:Ea; cbn [bind] in E; [|discriminate].
        injection E as <- <-. apply add_paragraph_ok in Ea as [Hp Htt].
        split; [|congruence].
        rewrite Hps, Hp, <- app_assoc. eexists; reflexivity.
      * injection E as <- <-. cbn in Hps, Ht.
        split; [|exact Ht].
        rewrite Hps, <- app_assoc. eexists; reflexivity.
Qed.

Lemma parse_markdown_prefix (ls : list str) (d d' : docx) :
  parse_markdown_to_word ls d = Ok d' ->
  (exists ps, d_paras d' = d_paras d ++ ps) /\ d_title d' = d_title d.
Proof.
  unfold parse_markdown_to_word.
  set (d0 := if str_mem inline_code (d_styles d) then d
             else set_styles d (d_styles d ++ [inline_code])).
  assert (H0 : d_paras d0 = d_paras d /\ d_title d0 = d_title d).
  { subst d0. destruct (str_mem _ _); split; reflexivity. }
  destruct (parse_lines ls (d0, 0)) as [[d1 c1]|] eqn:E; cbn [bind]; [|discriminate].
  intros H; injection H as <-. cbn [fst].
  apply parse_lines_prefix in E as [[ps Hps] Ht].
  destruct H0 as [Hp0 Ht0]. split; [exists ps; congruence | congruence].
Qed.

Lemma apply_metadata_prefix (d d' : docx) (py_format : value -> str) (m : metadata) :
  apply_metadata py_format d m = Ok d' ->
  (exists ps, d_paras d' = d_paras d ++ ps) /\
  d_title d' = Some (get_or_default (lit "Title") m).
Proof.
  unfold apply_metadata.
  destruct (add_paragraph _ _ _ _) as [d2|] eqn:E2; cbn [bind]; [|discriminate].
  destruct (add_paragraph d2 _ _ _) as [d3|] eqn:E3; cbn [bind]; [|discriminate].
  intros E4.
  apply add_paragraph_ok in E2 as [P2 T2].
  apply add_paragraph_ok in E3 as [P3 T3].
  apply add_paragraph_ok in E4 as [P4 T4].
  cbn [set_core d_title d_paras] in P2, T2.
  split.
  - rewrite P4, P3, P2, <- !app_assoc. eexists; reflexivity.
  - congruence.
Qed.

Lemma detect_title_aux_no_pair (md_lines clean : list str) (m : metadata) :
  (forall j, S j < length md_lines -> is_underline (strip (nth (S j) md_lines [])) = false) ->
  fst (detect_title_aux md_lines clean m) = m.
Proof.
  revert clean; induction md_lines as [|l ls IH]; intros clean H; [reflexivity|].
  destruct ls as [|n rest]; [reflexivity|].
  cbn [detect_title_aux].
  pose proof (H 0 ltac:(cbn; lia)) as H0. cbn [nth] in H0. rewrite H0.
  apply IH. intros j Hj. apply (H (S j)). cbn in Hj |- *. lia.
Qed.

(** C10: when the front matter leaves [Title] at the sentinel and no line
    pair is a title underline, a successful [convert] adds, right after the
    template's own paragraphs, a [Title]-styled paragraph whose text is
    [-unassigned-], and the document's core title is [-unassigned-]. *)
Theorem convert_sentinel_title (safe_load : str -> load_result)
    (value_text py_format : value -> str) (doc : docx) (md : list str)
    (m0 : metadata) (d' : docx)
    (Hmeta : extract_metadata safe_load md = Ok m0)
    (Htitle : dict_get (lit "Title") m0 = Some (YStr unassigned))
    (Hnopair : forall j, S j < length md -> is_underline (strip (nth (S j) md [])) = false)
    (Hconv : convert safe_load value_text py_format doc md = Ok d') :
  nth_error (d_paras d') (length (d_paras doc)) =
    Some {| p_style := Some (lit "Title"); p_indent := None;
            p_runs := [plain_run unassigned] |} /\
  d_title d' = Some (YStr unassigned).
Proof.
  unfold convert in Hconv. rewrite Hmeta in Hconv. cbn [bind] in Hconv.
  rewrite Htitle in Hconv. cbn [bind] in Hconv.
  replace (is_unassigned (YStr unassigned)) with true in Hconv by reflexivity.
  destruct (detect_title md m0) as [m clean] eqn:Ed.
  assert (Hm : m = m0).
  { change m with (fst (m, clean)). rewrite <- Ed. apply detect_title_aux_no_pair. exact Hnopair. }
  subst m. rewrite Htitle in Hconv. cbn [bind value_str] in Hconv.
  destruct (add_paragraph doc unassigned (Some (lit "Title")) None) as [d1|] eqn:E1;
    cbn [bind] in Hconv; [|discriminate].
  destruct (parse_markdown_to_word clean (set_core_title d1 (YStr unassigned))) as [d3|] eqn:E3;
    cbn [bind] in Hconv; [|discriminate].
  apply add_paragraph_ok in E1 as [P1 T1].
  apply parse_markdown_prefix in E3 as [[ps3 P3] T3].
  apply apply_metadata_prefix in Hconv as [[ps4 P4] T4].
  split.
  - rewrite P4, P3. cbn [set_core_title d_paras]. rewrite P1, <- !app_assoc.
    rewrite nth_error_app2 by lia. rewrite Nat.sub_diag. reflexivity.
  - rewrite T4. unfold get_or_default. rewrite Htitle. reflexivity.
Qed.

Lemma convert_sentinel_title_witness :
  exists d', convert sample_safe_load sample_text sample_format sample_doc c10_md = Ok d' /\
  nth_error (d_paras d') (length (d_paras sample_doc)) =
    Some {| p_style := Some (lit "Title"); p_indent := None;
            p_runs := [plain_run unassigned] |} /\
  d_title d' = Some (YStr unassigned).
Proof.
  destruct (convert sample_safe_load sample_text sample_format sample_doc c10_md)
    as [d'|e] eqn:E.
  - exists d'. split; [reflexivity|].
    apply (convert_sentinel_title sample_safe_load sample_text sample_format
             sample_doc c10_md default_metadata d').
    + reflexivity.
    + reflexivity.
    + intros j Hj. cbn in Hj. assert (j = 0) as -> by lia. reflexivity.
    + exact E.
  - vm_compute in E. discriminate.
Defined.

(** ** C1: the runs of a paragraph *)

Lemma runs_of_texts (toks : list str) :
  forall b i, map r_text (runs_of toks b i) = filter nontag toks.
Proof.
  induction toks as [|t ts IH]; intros b i; [reflexivity|].
  cbn [runs_of filter]. unfold nontag, is_tag_tok.
  destruct (streq t (lit "<b>")); [apply IH|].
  destruct (streq t (lit "</b>")); [apply IH|].
  destruct (streq t (lit "<i>")); [apply IH|].
  destruct (streq t (lit "</i>")); [apply IH|].
  cbn. f_equal. apply IH.
Qed.

Lemma runs_of_plain (toks : list str) :
  forall b i r, In r (runs_of toks b i) -> is_plain_run r = true.
Proof.
  induction toks as [|t ts IH]; intros b i r H; [destruct H|].
  cbn [runs_of] in H.
  destruct (streq t (lit "<b>")); [eapply IH; exact H|].
  destruct (streq t (lit "</b>")); [eapply IH; exact H|].
  destruct (streq t (lit "<i>")); [eapply IH; exact H|].
  destruct (streq t (lit "</i>")); [eapply IH; exact H|].
  destruct H as [<-|H]; [reflexivity | eapply IH; exact H].
Qed.

Lemma is_tag_tok_starts (t s : str) :
  is_tag_tok t = true -> starts_tag (t ++ s) = true.
Proof.
  unfold is_tag_tok. intros H.
  repeat match type of H with
         | _ || _ = true => apply orb_true_iff in H as [H|H]
         end;
    apply streq_spec in H; subst t; destruct s as [|? [|? ?]]; reflexivity.
Qed.

Lemma nontag_of_inv (acc s : str) :
  acc = [] \/ starts_tag (rev acc ++ s) = false -> nontag (rev acc) = true.
Proof.
  intros [->|H]; [reflexivity|].
  unfold nontag. destruct (is_tag_tok (rev acc)) eqn:E; [|reflexivity].
  apply (is_tag_tok_starts _ s) in E. congruence.
Qed.

Lemma tag3_tok (x y z : ascii) : tag3 x y z = true -> is_tag_tok [x; y; z] = true.
Proof.
  unfold tag3. intros H.
  apply andb_true_iff in H as [H Hz]. apply andb_true_iff in H as [Hx Hy].
  apply ceq_spec in Hx, Hz. subst.
  apply orb_true_iff in Hy as [Hy|Hy]; apply ceq_spec in Hy; subst; reflexivity.
Qed.

Lemma tag4_tok (x y z w : ascii) : tag4 x y z w = true -> is_tag_tok [x; y; z; w] = true.
Proof.
  unfold tag4. intros H.
  apply andb_true_iff in H as [H Hw]. apply andb_true_iff in H as [H Hz].
  apply andb_true_iff in H as [Hx Hy].
  apply ceq_spec in Hx, Hy, Hw. subst.
  apply orb_true_iff in Hz as [Hz|Hz]; apply ceq_spec in Hz; subst; reflexivity.
Qed.

(** The non-separator tokens of [re.split] concatenate to [untag]. *)
Lemma split_aux_texts (n : nat) :
  forall s acc, length s <= n ->
  acc = [] \/ starts_tag (rev acc ++ s) = false ->
  concat (filter nontag (split_aux acc s)) = rev acc ++ untag s.
Proof.
  induction n as [|n IH]; intros s acc Hlen Hinv.
  - destruct s; [|cbn in Hlen; lia].
    cbn. rewrite (nontag_of_inv acc [] Hinv). cbn. reflexivity.
  - assert (Hpush : forall x r1, s = x :: r1 -> starts_tag (x :: r1) = false ->
              concat (filter nontag (split_aux (x :: acc) r1)) = rev acc ++ x :: untag r1).
    { intros x r1 -> Hst. rewrite IH.
      - cbn [rev]. rewrite <- app_assoc. reflexivity.
      - cbn in Hlen; lia.
      - right. cbn [rev]. rewrite <- app_assoc. cbn [app].
        destruct Hinv as [->|Hinv]; [exact Hst | exact Hinv]. }
    destruct s as [|x [|y [|z r3]]].
    + cbn. rewrite (nontag_of_inv acc [] Hinv). cbn. reflexivity.
    + cbn [split_aux untag]. apply (Hpush x []); reflexivity.
    + cbn [split_aux untag]. apply (Hpush x [y]); reflexivity.
    + cbn [split_aux untag].
      destruct (tag3 x y z) eqn:E3.
      * cbn [filter]. rewrite (nontag_of_inv acc _ Hinv).
        unfold nontag at 1. rewrite (tag3_tok _ _ _ E3). cbn [negb concat].
        rewrite IH; [reflexivity | cbn in Hlen; lia | left; reflexivity].
      * destruct r3 as [|w r4].
        -- apply (Hpush x [y; z]); [reflexivity|]. cbn. rewrite E3. reflexivity.
        -- destruct (tag4 x y z w) eqn:E4.
           ++ cbn [filter]. rewrite (nontag_of_inv acc _ Hinv).
              unfold nontag at 1. rewrite (tag4_tok _ _ _ _ E4). cbn [negb concat].
              rewrite IH; [reflexivity | cbn in Hlen; lia | left; reflexivity].
           ++ apply (Hpush x (y :: z :: w :: r4)); [reflexivity|].
              cbn. rewrite E3, E4. reflexivity.
Qed.

Lemma text_runs_untag (line : str) :
  run_text (text_runs line) = untag (emphasis (strip_code line)).
Proof.
  unfold run_text, text_runs. rewrite runs_of_texts.
  unfold split_tags. rewrite (split_aux_texts (length (emphasis (strip_code line)))).
  - reflexivity.
  - lia.
  - left; reflexivity.
Qed.

Lemma untag_plain (x : ascii) (t : str) :
  starts_tag (x :: t) = false -> untag (x :: t) = x :: untag t.
Proof.
  destruct t as [|y [|z [|w r]]]; intros H; try reflexivity.
  - cbn [starts_tag] in H. rewrite orb_false_r in H. cbn [untag]. rewrite H. reflexivity.
  - cbn [starts_tag] in H. apply orb_false_iff in H as [H3 H4].
    cbn [untag]. rewrite H3, H4. reflexivity.
Qed.

Lemma untag_tag3 (x y z : ascii) (r : str) :
  tag3 x y z = true -> untag (x :: y :: z :: r) = untag r.
Proof. intros H. cbn [untag]. rewrite H. reflexivity. Qed.

Lemma untag_tag4 (x y z w : ascii) (r : str) :
  tag3 x y z = false -> tag4 x y z w = true -> untag (x :: y :: z :: w :: r) = untag r.
Proof. intros H3 H4. cbn [untag]. rewrite H3, H4. reflexivity. Qed.

Lemma starts_tag_break (x y : ascii) (v : str) :
  breaks v -> v <> [] -> starts_tag (x :: y :: v) = false.
Proof.
  destruct v as [|h v']; intros Hv Hne; [congruence|].
  destruct Hv as [->| ->]; destruct v' as [|w r]; cbn [starts_tag]; tag_false; reflexivity.
Qed.

Lemma starts_tag_break1 (x : ascii) (v : str) :
  breaks v -> starts_tag (x :: v) = false.
Proof.
  destruct v as [|h [|z [|w r]]]; intros Hv; try reflexivity;
    destruct Hv as [->| ->]; cbn [starts_tag]; tag_false; reflexivity.
Qed.

Lemma untag_app (n : nat) :
  forall u v, length u <= n -> breaks v -> untag (u ++ v) = untag u ++ untag v.
Proof.
  induction n as [|n IH]; intros u v Hlen Hv.
  { destruct u; [reflexivity | cbn in Hlen; lia]. }
  destruct v as [|h v'] eqn:Ev; [rewrite !app_nil_r; reflexivity|].
  rewrite <- Ev in *. assert (Hne : v <> []) by (rewrite Ev; discriminate).
  clear h v' Ev.
  destruct u as [|x [|y [|z u3]]].
  - reflexivity.
  - cbn [app]. rewrite untag_plain by (apply starts_tag_break1; exact Hv). reflexivity.
  - cbn [app]. rewrite untag_plain by (apply starts_tag_break; assumption).
    change (untag [x; y]) with (x :: untag [y]). cbn [app]. f_equal.
    apply (IH [y]); [cbn in Hlen |- *; lia | exact Hv].
  - cbn [app].
    destruct (tag3 x y z) eqn:E3.
    { rewrite !untag_tag3 by exact E3. apply IH; [cbn in Hlen; lia | exact Hv]. }
    destruct u3 as [|w u4].
    + cbn [app].
      assert (Hs : starts_tag (x :: y :: z :: v) = false).
      { cbn [starts_tag]. rewrite E3. cbn [orb].
        destruct v as [|h v']; [congruence|].
        destruct Hv as [->| ->]; tag_false; reflexivity. }
      rewrite (untag_plain x (y :: z :: v) Hs).
      rewrite (untag_plain x [y; z]) by (cbn [starts_tag]; rewrite E3; reflexivity).
      cbn [app]. f_equal. apply (IH [y; z]); [cbn in Hlen |- *; lia | exact Hv].
    + cbn [app]. destruct (tag4 x y z w) eqn:E4.
      { rewrite !untag_tag4 by assumption. apply IH; [cbn in Hlen; lia | exact Hv]. }
      assert (Hs : forall r, starts_tag (x :: y :: z :: w :: r) = false)
        by (intros r; cbn [starts_tag]; rewrite E3, E4; reflexivity).
      rewrite (untag_plain x (y :: z :: w :: u4 ++ v)) by apply Hs.
      rewrite (untag_plain x (y :: z :: w :: u4)) by apply Hs. cbn [app]. f_equal.
      apply (IH (y :: z :: w :: u4)); [cbn in Hlen |- *; lia | exact Hv].
Qed.

Lemma untag_app' (u v : str) : breaks v -> untag (u ++ v) = untag u ++ untag v.
Proof. intros Hv. apply (untag_app (length u)); [lia | exact Hv]. Qed.

Lemma starts_tag_star (t : str) : starts_tag ("*"%char :: t) = false.
Proof. destruct t as [|y [|z [|w r]]]; reflexivity. Qed.

Lemma untag_stars (d w : str) : stars d = true -> untag (d ++ w) = d ++ untag w.
Proof.
  induction d as [|x d IH]; intros H; [reflexivity|].
  cbn [stars forallb] in H. apply andb_true_iff in H as [Hx H].
  apply ceq_spec in Hx. subst x. cbn [app].
  rewrite untag_plain by apply starts_tag_star.
  rewrite IH by exact H. reflexivity.
Qed.

Lemma filter_stars (d : str) : stars d = true -> filter nonstar d = [].
Proof.
  induction d as [|x d IH]; intros H; [reflexivity|].
  cbn [stars forallb] in H. apply andb_true_iff in H as [Hx H].
  apply ceq_spec in Hx. subst x. cbn. apply IH, H.
Qed.

Lemma breaks_stars (d w : str) : d <> [] -> stars d = true -> breaks (d ++ w).
Proof.
  destruct d as [|x d]; intros Hne H; [congruence|].
  cbn [stars forallb] in H. apply andb_true_iff in H as [Hx _].
  apply ceq_spec in Hx. subst x. right. reflexivity.
Qed.

Lemma startswith_split (s d : str) : startswith s d = true -> s = d ++ skipn (length d) s.
Proof.
  revert s. induction d as [|c d IH]; intros s H; [reflexivity|].
  destruct s as [|x s]; cbn in H; [discriminate|].
  apply andb_true_iff in H as [Hx H]. apply ceq_spec in Hx. subst x.
  cbn [app length skipn]. f_equal. apply IH, H.
Qed.

Lemma find_close_split (d s cnt r : str) :
  find_close d s = Some (cnt, r) -> s = cnt ++ d ++ r.
Proof.
  revert cnt r. induction s as [|x t IH]; intros cnt r H; cbn [find_close] in H.
  - destruct (startswith [] d) eqn:E; [|discriminate].
    injection H as <- <-. cbn [app]. apply (startswith_split [] d E).
  - destruct (startswith (x :: t) d) eqn:E.
    + injection H as <- <-. cbn [app]. apply (startswith_split _ d E).
    + destruct (ceq x "010"%char); [discriminate|].
      destruct (find_close d t) as [[c' r']|] eqn:F; [|discriminate].
      injection H as <- <-. cbn [app]. f_equal. apply IH. reflexivity.
Qed.

(** One emphasis substitution changes a string only by separators and
    asterisks. *)
Lemma sub_delim_visible (d o c : str)
  (Hd : d <> []) (Hs : stars d = true)
  (Ho : forall w, untag (o ++ w) = untag w) (Hob : forall w, breaks (o ++ w))
  (Hc : forall w, untag (c ++ w) = untag w) (Hcb : forall w, breaks (c ++ w)) :
  forall f u s, visible (u ++ sub_delim f d (wrap o c) s) = visible (u ++ s).
Proof.
  induction f as [|f IH]; intros u s; [reflexivity|].
  destruct s as [|x t]; [reflexivity|]. cbn [sub_delim].
  destruct (startswith (x :: t) d) eqn:E.
  - destruct (find_close d (skipn (length d) (x :: t))) as [[cnt r]|] eqn:F.
    + pose proof (startswith_split _ _ E) as Hsplit.
      rewrite (find_close_split _ _ _ _ F) in Hsplit. rewrite Hsplit.
      unfold visible, wrap.
      rewrite (untag_app' u ((o ++ cnt ++ c) ++ _)) by (rewrite <- app_assoc; apply Hob).
      rewrite (untag_app' u (d ++ _)) by (apply breaks_stars; assumption).
      rewrite <- !app_assoc, Ho.
      rewrite (untag_app' cnt (c ++ _)) by apply Hcb. rewrite Hc.
      rewrite (untag_stars d (cnt ++ d ++ r)) by exact Hs.
      rewrite (untag_app' cnt (d ++ r)) by (apply breaks_stars; assumption).
      rewrite (untag_stars d r) by exact Hs.
      rewrite !filter_app, !(filter_stars d Hs).
      cbn [app]. f_equal. f_equal.
      exact (IH [] r).
    + replace (u ++ x :: sub_delim f d (wrap o c) t) with ((u ++ [x]) ++ sub_delim f d (wrap o c) t)
        by (rewrite <- app_assoc; reflexivity).
      rewrite IH. rewrite <- app_assoc. reflexivity.
  - replace (u ++ x :: sub_delim f d (wrap o c) t) with ((u ++ [x]) ++ sub_delim f d (wrap o c) t)
      by (rewrite <- app_assoc; reflexivity).
    rewrite IH. rewrite <- app_assoc. reflexivity.
Qed.

Lemma re_sub_visible (d o c s : str)
  (Hd : d <> []) (Hs : stars d = true)
  (Ho : forall w, untag (o ++ w) = untag w) (Hob : forall w, breaks (o ++ w))
  (Hc : forall w, untag (c ++ w) = untag w) (Hcb : forall w, breaks (c ++ w)) :
  visible (re_sub d (wrap o c) s) = visible s.
Proof. exact (sub_delim_visible d o c Hd Hs Ho Hob Hc Hcb (length s) [] s). Qed.

Lemma emphasis_visible (s : str) : visible (emphasis s) = visible s.
Proof.
  unfold emphasis.
  rewrite re_sub_visible, re_sub_visible, re_sub_visible;
    first [reflexivity | discriminate | intros w; first [left; reflexivity | reflexivity]].
Qed.

Lemma tag_free_untag (s : str) : tag_free s = true -> untag s = s.
Proof.
  induction s as [|x t IH]; intros H; [reflexivity|].
  cbn [tag_free] in H. apply andb_true_iff in H as [Hn H].
  rewrite untag_plain by (apply negb_true_iff in Hn; exact Hn).
  f_equal. apply IH, H.
Qed.

Lemma filter_all {A} (f : A -> bool) (l : list A) :
  (forall x, In x l -> f x = true) -> filter f l = l.
Proof.
  induction l as [|a l IH]; intros H; [reflexivity|].
  cbn. rewrite (H a (or_introl eq_refl)). f_equal.
  apply IH. intros x Hx. apply H. right. exact Hx.
Qed.

Lemma plain_runs_text (line : str) :
  filter is_plain_run (paragraph_runs line) = text_runs line.
Proof.
  unfold paragraph_runs. rewrite filter_app.
  replace (filter is_plain_run (map code_run (re_findall bq line))) with (@nil run)
    by (induction (re_findall bq line); [reflexivity | exact IHl]).
  cbn [app]. apply filter_all. intros r Hr. unfold text_runs in Hr.
  eapply runs_of_plain. exact Hr.
Qed.

(** The visible text of the plain runs of a paragraph, for any line. *)
Lemma plain_runs_visible (line : str) :
  filter nonstar (run_text (filter is_plain_run (paragraph_runs line))) = visible (strip_code line).
Proof.
  rewrite plain_runs_text, text_runs_untag. apply emphasis_visible.
Qed.

(** C1 (counterexample): the body line [a `x` b] gives two runs, first
    the code-styled [x], then the plain [a  b]: the code span's content comes
    before the text that precedes it in the line, and the concatenation of
    the runs, [xa  b], is not the line with its code span removed. *)
Lemma paragraph_runs_code_first :
  heading_match c1_line = None /\
  map r_text (paragraph_runs c1_line) = [lit "x"; lit "a  b"] /\
  map r_style (paragraph_runs c1_line) = [Some inline_code; None] /\
  strip_code c1_line = lit "a  b" /\
  run_text (paragraph_runs c1_line) <> strip_code c1_line.
Proof.
  split; [reflexivity|]. split; [vm_compute; reflexivity|].
  split; [vm_compute; reflexivity|]. split; [vm_compute; reflexivity|].
  vm_compute. discriminate.
Qed.

(** C1 (amended): the runs of a body line are first one [Inline Code] run
    per code span, holding the span's content, in the order of the spans,
    then the text runs, none of them code-styled; when the code-stripped
    line contains no literal [<b>], [</b>], [<i>] or [</i>], the text runs,
    concatenated in order, equal the line with its code spans removed, once
    every [*] character is deleted from both sides. *)
Theorem paragraph_runs_cover (line : str) :
  paragraph_runs line = map code_run (re_findall bq line) ++ text_runs line /\
  (forall r, In r (text_runs line) -> r_style r = None) /\
  (tag_free (strip_code line) = true ->
   filter nonstar (run_text (text_runs line)) = filter nonstar (strip_code line)).
Proof.
  split; [reflexivity|]. split.
  - intros r Hr. unfold text_runs in Hr. apply runs_of_plain in Hr.
    unfold is_plain_run in Hr. destruct (r_style r); [discriminate | reflexivity].
  - intros Hfree. rewrite <- plain_runs_text, plain_runs_visible. unfold visible.
    rewrite tag_free_untag by exact Hfree. reflexivity.
Qed.

Lemma paragraph_runs_cover_witness :
  tag_free (strip_code c1_code_line) = true /\
  filter nonstar (run_text (text_runs c1_code_line)) = filter nonstar (strip_code c1_code_line).
Proof.
  assert (Hf : tag_free (strip_code c1_code_line) = true) by (vm_compute; reflexivity).
  split; [exact Hf|].
  exact (proj2 (proj2 (paragraph_runs_cover c1_code_line)) Hf).
Defined.

(** ** C9: list items *)















(** * Further properties of the code *)

(** ** [_parse_markdown_to_word] *)

Lemma add_paragraph_styles (d d' : docx) (text : str) (style : option str) (ind : option nat) :
  add_paragraph d text style ind = Ok d' -> d_styles d' = d_styles d.
Proof.
  unfold add_paragraph. destruct style as [s|].
  - unfold check_style. destruct (str_mem s (d_styles d)); cbn [bind]; [|discriminate].
    intros H; injection H as <-. reflexivity.
  - cbn [bind]. intros H; injection H as <-. reflexivity.
Qed.

Lemma parse_line_cases (d : docx) (c : nat) (l : str) (d1 : docx) (c1 : nat) :
  parse_line (d, c) l = Ok (d1, c1) ->
  (nonblank l = false /\ d1 = d /\ c1 = c) \/
  (exists n t, heading_match (strip l) = Some (n, t) /\ nonblank l = true /\ c1 = n - 1 /\
     add_paragraph d t (Some (heading_style n)) (Some (n - 1)) = Ok d1) \/
  (heading_match (strip l) = None /\ nonblank l = true /\ c1 = c /\
     d1 = set_paras d (d_paras d ++
            [{| p_style := None; p_indent := Some c; p_runs := paragraph_runs (strip l) |}])).
Proof.
  unfold parse_line, nonblank. intros H. destruct (strip l) as [|ch cs].
  - injection H as <- <-. left; auto.
  - right. destruct (heading_match (ch :: cs)) as [[n t]|] eqn:Eh.
    + destruct (add_paragraph _ _ _ _) as [d2|] eqn:Ea; cbn [bind] in H; [|discriminate].
      injection H as <- <-. left. exists n, t. auto.
    + injection H as <- <-. right. auto.
Qed.

(** Everything [parse_lines] keeps track of. *)
Lemma parse_lines_spec (ls : list str) :
  forall d c d' c', parse_lines ls (d, c) = Ok (d', c') ->
  d_styles d' = d_styles d /\ d_title d' = d_title d /\
  c' = match last_heading ls with Some n => n - 1 | None => c end /\
  exists ps, d_paras d' = d_paras d ++ ps /\ length ps = length (filter nonblank ls) /\
    forall p, In p ps -> p_style p = None \/
      exists l n t, In l ls /\ heading_match (strip l) = Some (n, t) /\
                    p_style p = Some (heading_style n).
Proof.
  induction ls as [|l ls IH]; intros d c d' c' H.
  - injection H as <- <-. repeat split; [].
    exists []. rewrite app_nil_r. repeat split; [intros p []].
  - cbn [parse_lines] in H.
    destruct (parse_line (d, c) l) as [[d1 c1]|] eqn:E; cbn [bind] in H; [|discriminate].
    apply IH in H as (Hs & Ht & Hc & ps & Hp & Hlen & Hst).
    apply parse_line_cases in E as [(Hb & -> & ->) | [(n & t & Hh & Hb & -> & Ea) | (Hh & Hb & -> & ->)]].
    + cbn [filter last_heading]. rewrite Hb.
      repeat split; [exact Hs | exact Ht | |].
      * rewrite Hc. destruct (last_heading ls); [reflexivity|].
        unfold heading_level, nonblank in *. destruct (strip l); [reflexivity | discriminate].
      * exists ps. repeat split; [exact Hp | exact Hlen |].
        intros p Hin. destruct (Hst p Hin) as [H0 | (l' & n' & t' & H1 & H2 & H3)]; [left; exact H0|].
        right. exists l', n', t'. split; [right; exact H1 | split; assumption].
    + pose proof (add_paragraph_styles _ _ _ _ _ Ea) as Hs1.
      apply add_paragraph_ok in Ea as [Hp1 Ht1].
      cbn [filter last_heading]. rewrite Hb.
      repeat split; [congruence | congruence | |].
      * rewrite Hc. destruct (last_heading ls); [reflexivity|].
        unfold heading_level. rewrite Hh. reflexivity.
      * eexists. rewrite Hp, Hp1, <- app_assoc. split; [reflexivity|].
        split; [cbn [length app]; rewrite Hlen; reflexivity|].
        intros p [<-|Hin].
        -- right. exists l, n, t. split; [left; reflexivity | split; [exact Hh | reflexivity]].
        -- destruct (Hst p Hin) as [H0 | (l' & n' & t' & H1 & H2 & H3)]; [left; exact H0|].
           right. exists l', n', t'. split; [right; exact H1 | split; assumption].
    + cbn [filter last_heading]. rewrite Hb.
      repeat split; [exact Hs | exact Ht | |].
      * rewrite Hc. destruct (last_heading ls); [reflexivity|].
        unfold heading_level. rewrite Hh. reflexivity.
      * eexists. rewrite Hp. cbn [set_paras d_paras]. rewrite <- app_assoc. split; [reflexivity|].
        split; [cbn [length app]; rewrite Hlen; reflexivity|].
        intros p [<-|Hin]; [left; reflexivity|].
        destruct (Hst p Hin) as [H0 | (l' & n' & t' & H1 & H2 & H3)]; [left; exact H0|].
        right. exists l', n', t'. split; [right; exact H1 | split; assumption].
Qed.

Lemma parse_lines_app (xs ys : list str) (st : docx * nat) :
  parse_lines (xs ++ ys) st = (st' <- parse_lines xs st ;; parse_lines ys st').
Proof.
  revert st. induction xs as [|x xs IH]; intros st; [reflexivity|].
  cbn [app parse_lines]. destruct (parse_line st x) as [st1|e]; cbn [bind]; [apply IH | reflexivity].
Qed.

Lemma heading_style_not_inline (n : nat) : streq (heading_style n) inline_code = false.
Proof. reflexivity. Qed.

Lemma str_mem_snoc (x y : str) (xs : list str) :
  str_mem x (xs ++ [y]) = str_mem x xs || streq x y.
Proof.
  induction xs as [|z xs IH]; cbn; [rewrite orb_false_r; reflexivity|].
  rewrite IH, orb_assoc. reflexivity.
Qed.

(** The styles [_parse_markdown_to_word] works with: the template's, plus
    [Inline Code]; a heading style is present in one iff in the other. *)
Lemma parse_styles_heading (d : docx) (n : nat) :
  str_mem (heading_style n)
    (d_styles (if str_mem inline_code (d_styles d) then d
               else set_styles d (d_styles d ++ [inline_code]))) =
  str_mem (heading_style n) (d_styles d).
Proof.
  destruct (str_mem inline_code (d_styles d)); [reflexivity|].
  cbn [set_styles d_styles]. rewrite str_mem_snoc, heading_style_not_inline.
  apply orb_false_r.
Qed.

Lemma str_mem_In' (x : str) (xs : list str) : str_mem x xs = false <-> ~ In x xs.
Proof.
  rewrite <- str_mem_In. destruct (str_mem x xs); split; congruence.
Qed.

Lemma parse_lines_ok_inv (ls : list str) :
  forall d c st', parse_lines ls (d, c) = Ok st' ->
  forall l n t, In l ls -> heading_match (strip l) = Some (n, t) ->
                str_mem (heading_style n) (d_styles d) = true.
Proof.
  induction ls as [|l ls IH]; intros d c st' H l' n t Hin Hh; [destruct Hin|].
  cbn [parse_lines] in H.
  destruct (parse_line (d, c) l) as [[d1 c1]|e1] eqn:E; cbn [bind] in H; [|discriminate].
  destruct Hin as [->|Hin].
  - apply parse_line_cases in E as
      [(Hb & _ & _) | [(n' & t' & Hh' & _ & _ & Ea) | (Hh' & _ & _ & _)]].
    + unfold nonblank in Hb. destruct (strip l'); [discriminate | discriminate].
    + rewrite Hh in Hh'. injection Hh' as <- <-.
      unfold add_paragraph, check_style in Ea.
      destruct (str_mem (heading_style n) (d_styles d)); [reflexivity | discriminate].
    + congruence.
  - assert (Hs : d_styles d1 = d_styles d).
    { apply parse_line_cases in E as
        [(_ & -> & _) | [(n' & t' & _ & _ & _ & Ea) | (_ & _ & _ & ->)]];
        [reflexivity | exact (add_paragraph_styles _ _ _ _ _ Ea) | reflexivity]. }
    rewrite <- Hs. destruct st' as [d2 c2]. exact (IH d1 c1 _ H l' n t Hin Hh).
Qed.

(** A heading line whose [Heading n] style the document does not define
    makes [_parse_markdown_to_word] fail: no document comes out. *)
Theorem parse_markdown_missing_style (ls : list str) (d : docx) (l t : str) (n : nat)
  (Hin : In l ls) (Hh : heading_match (strip l) = Some (n, t))
  (Hmiss : ~ In (heading_style n) (d_styles d)) :
  forall d', parse_markdown_to_word ls d <> Ok d'.
Proof.
  intros d' Hd. apply Hmiss. unfold parse_markdown_to_word in Hd.
  destruct (parse_lines ls _) as [[d1 c1]|e] eqn:E; cbn [bind] in Hd; [|discriminate].
  apply str_mem_In. rewrite <- (parse_styles_heading d n).
  exact (parse_lines_ok_inv ls _ _ _ E l n t Hin Hh).
Qed.

Lemma parse_markdown_missing_style_witness :
  In (lit "### C") [lit "# A"; lit "### C"] /\
  heading_match (strip (lit "### C")) = Some (3, lit "C") /\
  ~ In (heading_style 3) (d_styles x_doc_no_h3) /\
  forall d', parse_markdown_to_word [lit "# A"; lit "### C"] x_doc_no_h3 <> Ok d'.
Proof.
  assert (Hin : In (lit "### C") [lit "# A"; lit "### C"]) by (right; left; reflexivity).
  assert (Hh : heading_match (strip (lit "### C")) = Some (3, lit "C")) by reflexivity.
  assert (Hm : ~ In (heading_style 3) (d_styles x_doc_no_h3)).
  { cbn. intros [H|[H|[H|[H|[]]]]]; discriminate H. }
  split; [exact Hin|]. split; [exact Hh|]. split; [exact Hm|].
  exact (parse_markdown_missing_style _ x_doc_no_h3 _ _ 3 Hin Hh Hm).
Defined.

(** Each non-blank line gives exactly one paragraph, blank lines none. *)
Theorem parse_markdown_count (ls : list str) (d d' : docx)
  (H : parse_markdown_to_word ls d = Ok d') :
  length (d_paras d') = length (d_paras d) + length (filter nonblank ls).
Proof.
  unfold parse_markdown_to_word in H.
  destruct (parse_lines ls _) as [[d1 c1]|e1] eqn:E; cbn [bind] in H; [|discriminate].
  injection H as <-. cbn [fst].
  apply parse_lines_spec in E as (_ & _ & _ & ps & Hp & Hlen & _).
  rewrite Hp, length_app, Hlen. destruct (str_mem inline_code (d_styles d)); reflexivity.
Qed.

Lemma parse_markdown_count_witness :
  exists d', parse_markdown_to_word [lit "# A"; lit "  "; lit "text"; []] sample_doc = Ok d' /\
    length (d_paras d') = length (d_paras sample_doc) + 2.
Proof.
  destruct (parse_markdown_to_word [lit "# A"; lit "  "; lit "text"; []] sample_doc) as [d'|e] eqn:E;
    [|vm_compute in E; discriminate].
  exists d'. split; [reflexivity|].
  rewrite (parse_markdown_count _ _ _ E). reflexivity.
Defined.

(** A body line is indented like the nearest heading above it: a quarter
    inch per level below 1, and not at all before the first heading. *)
Theorem parse_markdown_body_indent (pre : list str) (b : str) (d d' : docx)
  (H : parse_markdown_to_word (pre ++ [b]) d = Ok d')
  (Hb : nonblank b = true) (Hh : heading_match (strip b) = None) :
  exists ps, d_paras d' = ps ++
    [{| p_style := None;
        p_indent := Some (match last_heading pre with Some n => n - 1 | None => 0 end);
        p_runs := paragraph_runs (strip b) |}].
Proof.
  unfold parse_markdown_to_word in H. rewrite parse_lines_app in H.
  destruct (parse_lines pre _) as [[d1 c1]|e1] eqn:E; cbn [bind] in H; [|discriminate].
  apply parse_lines_spec in E as (_ & _ & Hc & _).
  cbn [parse_lines] in H.
  destruct (parse_line (d1, c1) b) as [[d2 c2]|e2] eqn:E2; cbn [bind] in H; [|discriminate].
  injection H as <-. cbn [fst].
  apply parse_line_cases in E2 as [(Hb' & _) | [(n & t & Hh' & _) | (_ & _ & _ & ->)]];
    [congruence | congruence |].
  cbn [set_paras d_paras]. rewrite Hc. eexists; reflexivity.
Qed.

Lemma parse_markdown_body_indent_witness :
  last_heading (removelast x_indent_lines) = Some 2 /\
  exists d', parse_markdown_to_word x_indent_lines sample_doc = Ok d' /\
    exists ps, d_paras d' = ps ++
      [{| p_style := None; p_indent := Some 1; p_runs := paragraph_runs (lit "y") |}].
Proof.
  split; [reflexivity|].
  destruct (parse_markdown_to_word x_indent_lines sample_doc) as [d'|e] eqn:E;
    [|vm_compute in E; discriminate].
  exists d'. split; [reflexivity|].
  exact (parse_markdown_body_indent [lit "# A"; lit "## B"; lit "x"; []] (lit "y")
           sample_doc d' E eq_refl eq_refl).
Defined.

(** ** [scan_markdown_styles] *)

Lemma set_add_mono (x y : str) (s : list str) : In y s -> In y (set_add x s).
Proof. unfold set_add. destruct (str_mem x s); [auto | intros H; apply in_or_app; left; exact H]. Qed.

Lemma set_add_self (x : str) (s : list str) : In x (set_add x s).
Proof.
  unfold set_add. destruct (str_mem x s) eqn:E; [apply str_mem_In; exact E|].
  apply in_or_app; right; left; reflexivity.
Qed.

Lemma scan_line_mono (st : detector) (l y : str) :
  In y (required_styles st) -> In y (required_styles (scan_line st l)).
Proof.
  intros H. unfold scan_line. destruct (strip l) as [|c cs]; [exact H|].
  destruct (heading_match (c :: cs)) as [[n t]|]; [apply set_add_mono; exact H|].
  unfold add_req.
  destruct (bullet_marker _); [apply set_add_mono; exact H|].
  destruct (number_marker _); [apply set_add_mono; exact H|].
  destruct (startswith _ _); [apply set_add_mono; exact H|].
  destruct (has_code_span _); apply set_add_mono; exact H.
Qed.

Lemma scan_fold_mono (ls : list str) :
  forall st y, In y (required_styles st) -> In y (required_styles (fold_left scan_line ls st)).
Proof.
  induction ls as [|l ls IH]; intros st y H; [exact H|].
  cbn [fold_left]. apply IH, scan_line_mono, H.
Qed.

Lemma scan_line_heading (st : detector) (l t : str) (n : nat) :
  heading_match (strip l) = Some (n, t) ->
  In (heading_style n) (required_styles (scan_line st l)) /\ current_level (scan_line st l) = n.
Proof.
  intros H. unfold scan_line. destruct (strip l) as [|c cs]; [discriminate|].
  rewrite H. split; [apply set_add_self | reflexivity].
Qed.

Lemma scan_requires_heading (st : detector) (ls : list str) (l t : str) (n : nat) :
  In l ls -> heading_match (strip l) = Some (n, t) ->
  In (heading_style n) (required_styles (scan_markdown_styles st ls)).
Proof.
  intros Hin Hh. apply in_split in Hin as (pre & post & ->).
  unfold scan_markdown_styles. rewrite fold_left_app. cbn [fold_left].
  apply scan_fold_mono. apply (scan_line_heading _ _ _ _ Hh).
Qed.

(** The converter styles the paragraphs it adds with no style or with a
    [Heading n] style, and every such heading style is one that
    [scan_markdown_styles] on the same lines requires. *)
Theorem parse_styles_required (ls : list str) (d d' : docx) (st : detector)
  (H : parse_markdown_to_word ls d = Ok d') :
  forall p, In p (skipn (length (d_paras d)) (d_paras d')) ->
  p_style p = None \/
  exists n, p_style p = Some (heading_style n) /\
            In (heading_style n) (required_styles (scan_markdown_styles st ls)).
Proof.
  unfold parse_markdown_to_word in H.
  destruct (parse_lines ls _) as [[d1 c1]|e1] eqn:E; cbn [bind] in H; [|discriminate].
  injection H as <-. cbn [fst].
  apply parse_lines_spec in E as (_ & _ & _ & ps & Hp & _ & Hst).
  assert (H0 : length (d_paras (if str_mem inline_code (d_styles d) then d
                 else set_styles d (d_styles d ++ [inline_code]))) = length (d_paras d))
    by (destruct (str_mem inline_code (d_styles d)); reflexivity).
  rewrite Hp, <- H0, skipn_app, skipn_all, Nat.sub_diag. cbn [skipn app].
  intros p Hin. destruct (Hst p Hin) as [H1 | (l & n & t & H1 & H2 & H3)]; [left; exact H1|].
  right. exists n. split; [exact H3 | apply (scan_requires_heading st ls l t n H1 H2)].
Qed.

Lemma parse_styles_required_witness :
  exists d', parse_markdown_to_word c10_md sample_doc = Ok d' /\
  forall p, In p (skipn (length (d_paras sample_doc)) (d_paras d')) ->
  p_style p = None \/
  exists n, p_style p = Some (heading_style n) /\
            In (heading_style n) (required_styles (scan_markdown_styles new_detector c10_md)).
Proof.
  destruct (parse_markdown_to_word c10_md sample_doc) as [d'|e] eqn:E;
    [|vm_compute in E; discriminate].
  exists d'. split; [reflexivity | exact (parse_styles_required _ _ _ _ E)].
Defined.

(** After a scan, [current_level] is the level of the last heading line,
    or the level the detector had before when the lines have no heading. *)
Theorem scan_current_level (st : detector) (ls : list str) :
  current_level (scan_markdown_styles st ls) =
  match last_heading ls with Some n => n | None => current_level st end.
Proof.
  unfold scan_markdown_styles.
  assert (Hgen : forall st0, current_level (fold_left scan_line ls st0) =
            match last_heading ls with Some n => n | None => current_level st0 end).
  { induction ls as [|l ls IH]; intros st0; [reflexivity|].
    cbn [fold_left last_heading]. rewrite IH.
    destruct (last_heading ls); [reflexivity|].
    unfold heading_level.
    destruct (heading_match (strip l)) as [[n t]|] eqn:Eh.
    - apply (scan_line_heading st0 l t n Eh).
    - unfold scan_line. destruct (strip l) as [|c cs]; [reflexivity|]. rewrite Eh.
      destruct (bullet_marker _); [reflexivity|].
      destruct (number_marker _); [reflexivity|].
      destruct (startswith _ _); [reflexivity|].
      destruct (has_code_span _); reflexivity. }
  rewrite Hgen. reflexivity.
Qed.

(** ** [_extract_metadata], [_detect_title], [_apply_metadata] *)

Lemma dict_get_set (k k' : str) (v : value) (m : metadata) :
  dict_get k (dict_set k' v m) = if streq k k' then Some v else dict_get k m.
Proof.
  induction m as [|[k0 v0] m IH]; cbn [dict_set dict_get].
  - destruct (streq k k'); reflexivity.
  - destruct (streq k' k0) eqn:E0.
    + apply streq_spec in E0. subst k0. cbn [dict_get].
      destruct (streq k k'); reflexivity.
    + cbn [dict_get]. destruct (streq k k0) eqn:E1; [|exact IH].
      apply streq_spec in E1. subst k0.
      destruct (streq k k') eqn:E2; [|reflexivity].
      apply streq_spec in E2. subst k'. rewrite streq_refl in E0. discriminate.
Qed.

Lemma dict_get_app (k : str) (a b : metadata) :
  dict_get k (a ++ b) = match dict_get k a with Some v => Some v | None => dict_get k b end.
Proof.
  induction a as [|[k0 v0] a IH]; [reflexivity|].
  cbn [app dict_get]. destruct (streq k k0); [reflexivity | exact IH].
Qed.

Lemma dict_get_fold (kvs : list (str * value)) :
  forall m k, dict_get k (fold_left (fun acc '(k, x) => dict_set k x acc) kvs m) =
  match dict_get k (rev kvs) with Some v => Some v | None => dict_get k m end.
Proof.
  induction kvs as [|[k0 x] kvs IH]; intros m k; [reflexivity|].
  cbn [fold_left rev]. rewrite IH, dict_get_app, dict_get_set. cbn [dict_get].
  destruct (dict_get k (rev kvs)); [reflexivity|].
  destruct (streq k k0); reflexivity.
Qed.

Lemma collect_yaml_no_delim (ls : list str) :
  (forall l, In l ls -> is_delim l = false) -> collect_yaml false ls = [].
Proof.
  induction ls as [|l ls IH]; intros H; [reflexivity|].
  cbn [collect_yaml]. pose proof (H l (or_introl eq_refl)) as Hl. unfold is_delim in Hl.
  rewrite Hl. apply IH. intros l' Hin. apply H. right. exact Hin.
Qed.

(** Without a [---] line there is no front matter: every field keeps its
    [-unassigned-] default, whatever the YAML loader would do. *)
Theorem extract_metadata_no_front_matter (safe_load : str -> load_result) (ls : list str)
  (H : forall l, In l ls -> is_delim l = false) :
  extract_metadata safe_load ls = Ok default_metadata.
Proof. unfold extract_metadata. rewrite (collect_yaml_no_delim ls H). reflexivity. Qed.

Lemma extract_metadata_no_front_matter_witness :
  extract_metadata sample_safe_load x_plain_md = Ok default_metadata.
Proof.
  apply extract_metadata_no_front_matter.
  intros l Hin. repeat (destruct Hin as [<-|Hin]; [reflexivity|]). destruct Hin.
Defined.

(** With a front matter that loads as a mapping, each of its keys is set
    to the last value the mapping gives it, and every other field keeps its
    default. *)
Theorem extract_metadata_mapping (safe_load : str -> load_result) (ls : list str)
  (kvs : list (str * value))
  (Hne : collect_yaml false ls <> [])
  (Hload : safe_load (join_nl (collect_yaml false ls)) = Loaded (YMap kvs)) :
  exists m, extract_metadata safe_load ls = Ok m /\
  forall k, dict_get k m =
    match dict_get k (rev kvs) with Some v => Some v | None => dict_get k default_metadata end.
Proof.
  unfold extract_metadata.
  destruct (collect_yaml false ls) as [|y ys]; [congruence|].
  rewrite Hload. cbn [merge_loaded]. eexists. split; [reflexivity|].
  intros k. apply dict_get_fold.
Qed.

Lemma extract_metadata_mapping_witness :
  exists m, extract_metadata sample_safe_load x_front_md = Ok m /\
  forall k, dict_get k m =
    match dict_get k (rev [(lit "Title", YStr (lit "Report")); (lit "Author", YStr (lit "Ann"));
                           (lit "Title", YStr (lit "Final"))]) with
    | Some v => Some v | None => dict_get k default_metadata end.
Proof.
  apply extract_metadata_mapping; [discriminate | vm_compute; reflexivity].
Defined.

Lemma dict_get_set_some (k k' : str) (v : value) (m : metadata) :
  dict_get k m <> None -> dict_get k (dict_set k' v m) <> None.
Proof. rewrite dict_get_set. destruct (streq k k'); [discriminate | auto]. Qed.

Lemma dict_get_fold_some (kvs : list (str * value)) (m : metadata) (k : str) :
  dict_get k m <> None ->
  dict_get k (fold_left (fun acc '(k, x) => dict_set k x acc) kvs m) <> None.
Proof. rewrite dict_get_fold. destruct (dict_get k (rev kvs)); [discriminate | auto]. Qed.

Lemma default_has_fields (k : str) : In k field_names -> dict_get k default_metadata <> None.
Proof.
  intros H. repeat (destruct H as [<-|H]; [discriminate|]). destruct H.
Qed.

(** [_detect_title] changes no metadata field but [Title]. *)
Theorem detect_title_only_title (ls : list str) (m : metadata) (k : str)
  (Hk : k <> lit "Title") :
  dict_get k (fst (detect_title ls m)) = dict_get k m.
Proof.
  unfold detect_title. generalize (@nil str) as clean.
  induction ls as [|l ls IH]; intros clean; [reflexivity|].
  destruct ls as [|n rest]; [reflexivity|].
  cbn [detect_title_aux]. destruct (is_underline (strip n)).
  - cbn [fst]. rewrite dict_get_set.
    destruct (streq k (lit "Title")) eqn:E; [apply streq_spec in E; congruence | reflexivity].
  - apply IH.
Qed.

Lemma detect_title_only_title_witness :
  lit "Author" <> lit "Title" /\
  dict_get (lit "Author") (fst (detect_title [lit "Report"; lit "===="] default_metadata)) =
  dict_get (lit "Author") default_metadata.
Proof.
  assert (H : lit "Author" <> lit "Title") by discriminate.
  split; [exact H | apply detect_title_only_title, H].
Defined.

(** Without a title underline, [_detect_title] returns every line but the
    last, trimmed. *)
Theorem detect_title_no_pair_lines (ls : list str) (m : metadata)
  (H : forall j, S j < length ls -> is_underline (strip (nth (S j) ls [])) = false) :
  detect_title ls m = (m, map strip (removelast ls)).
Proof.
  unfold detect_title. change (map strip (removelast ls)) with ([] ++ map strip (removelast ls)).
  generalize (@nil str) as clean. revert H.
  induction ls as [|l ls IH]; intros H clean; [rewrite app_nil_r; reflexivity|].
  destruct ls as [|n rest]; [rewrite app_nil_r; reflexivity|].
  assert (Step : detect_title_aux (l :: n :: rest) clean m =
    if is_underline (strip n) then (dict_set (lit "Title") (YStr (strip l)) m, rest)
    else detect_title_aux (n :: rest) (clean ++ [strip l]) m) by reflexivity.
  pose proof (H 0 ltac:(cbn; lia)) as H0. cbn [nth] in H0. rewrite Step, H0.
  rewrite IH.
  - change (removelast (l :: n :: rest)) with (l :: removelast (n :: rest)).
    cbn [map]. rewrite <- app_assoc. reflexivity.
  - intros j Hj. apply (H (S j)). cbn in Hj |- *. lia.
Qed.

Lemma detect_title_no_pair_lines_witness :
  detect_title [lit " a "; lit "b"; lit "c"] default_metadata =
  (default_metadata, [lit "a"; lit "b"]).
Proof.
  apply detect_title_no_pair_lines.
  intros j Hj. cbn in Hj. destruct j as [|[|j]]; [reflexivity | reflexivity | lia].
Defined.

Lemma apply_metadata_unfold (py_format : value -> str) (d : docx) (m : metadata) :
  apply_metadata py_format d m =
  if str_mem (lit "Normal") (d_styles d) then
    Ok (set_paras
          (set_core d (get_or_default (lit "Title") m) (get_or_default (lit "Author") m)
             (get_or_default (lit "Category") m) (get_or_default (lit "Version") m))
          (d_paras d ++
             [normal_para (labelled py_format "Document ID: " (lit "Document ID") m);
              normal_para (labelled py_format "Facility: " (lit "Facility") m);
              normal_para (labelled py_format "Content Category: " (lit "Content") m)]))
  else Err (KeyError (lit "Normal")).
Proof.
  unfold apply_metadata, add_paragraph, check_style, set_core, set_paras.
  cbn [d_styles d_paras d_title d_author d_subject d_version].
  destruct (str_mem (lit "Normal") (d_styles d)) eqn:E; cbn [bind]; [|reflexivity].
  cbn [d_styles d_paras d_title d_author d_subject d_version]. rewrite E. cbn [bind].
  cbn [d_styles d_paras d_title d_author d_subject d_version]. rewrite E. cbn [bind].
  unfold normal_para, labelled. rewrite <- !app_assoc. reflexivity.
Qed.

(** ** [convert] *)

Lemma parse_markdown_spec (ls : list str) (d d' : docx) :
  parse_markdown_to_word ls d = Ok d' ->
  d_title d' = d_title d /\
  d_styles d' = (if str_mem inline_code (d_styles d) then d_styles d
                 else d_styles d ++ [inline_code]) /\
  length (d_paras d') = length (d_paras d) + length (filter nonblank ls).
Proof.
  unfold parse_markdown_to_word.
  destruct (parse_lines ls _) as [[d1 c1]|e1] eqn:E; cbn [bind]; [|discriminate].
  intros H; injection H as <-. cbn [fst].
  apply parse_lines_spec in E as (Hs & Ht & _ & ps & Hp & Hlen & _).
  rewrite Hs, Ht, Hp, length_app, Hlen.
  destruct (str_mem inline_code (d_styles d)); repeat split.
Qed.

(** When the front matter sets [Title], [convert] adds the [Title]
    paragraph right after the template's paragraphs, stores the title in
    the core properties, and converts the whole file, front matter
    included: one paragraph per non-blank line, then the three metadata
    paragraphs. *)
Theorem convert_front_matter_title (safe_load : str -> load_result)
  (value_text py_format : value -> str) (doc : docx) (md : list str)
  (m0 : metadata) (t : value) (d' : docx)
  (Hmeta : extract_metadata safe_load md = Ok m0)
  (Htitle : dict_get (lit "Title") m0 = Some t)
  (Hset : is_unassigned t = false)
  (Hconv : convert safe_load value_text py_format doc md = Ok d') :
  nth_error (d_paras d') (length (d_paras doc)) =
    Some {| p_style := Some (lit "Title"); p_indent := None;
            p_runs := match value_str value_text t with
                      | [] => [] | _ => [plain_run (value_str value_text t)] end |} /\
  d_title d' = Some t /\
  length (d_paras d') = length (d_paras doc) + 1 + length (filter nonblank md) + 3.
Proof.
  unfold convert in Hconv. rewrite Hmeta in Hconv. cbn [bind] in Hconv.
  rewrite Htitle in Hconv. cbn [bind] in Hconv. rewrite Hset in Hconv.
  rewrite Htitle in Hconv. cbn [bind] in Hconv.
  destruct (add_paragraph doc (value_str value_text t) (Some (lit "Title")) None) as [d1|] eqn:E1;
    cbn [bind] in Hconv; [|discriminate].
  destruct (parse_markdown_to_word md (set_core_title d1 t)) as [d3|] eqn:E3;
    cbn [bind] in Hconv; [|discriminate].
  apply add_paragraph_ok in E1 as [P1 _].
  pose proof (parse_markdown_prefix _ _ _ E3) as [[ps3 P3] _].
  apply parse_markdown_spec in E3 as (_ & _ & L3).
  rewrite apply_metadata_unfold in Hconv.
  destruct (str_mem (lit "Normal") (d_styles d3)); [|discriminate].
  injection Hconv as <-. cbn [set_paras set_core d_paras d_title].
  cbn [set_core_title d_paras] in L3. rewrite P1, length_app in L3.
  split; [|split].
  - rewrite P3. cbn [set_core_title d_paras]. rewrite P1, <- !app_assoc.
    rewrite nth_error_app2 by lia. rewrite Nat.sub_diag. reflexivity.
  - assert (HT : get_or_default (lit "Title") m0 = t)
      by (unfold get_or_default; rewrite Htitle; reflexivity).
    exact (f_equal Some HT).
  - rewrite length_app, L3. cbn [length]. lia.
Qed.

Lemma convert_front_matter_title_witness :
  exists m0 d',
  extract_metadata sample_safe_load x_front_md = Ok m0 /\
  dict_get (lit "Title") m0 = Some (YStr (lit "Final")) /\
  convert sample_safe_load sample_text sample_format sample_doc x_front_md = Ok d' /\
  nth_error (d_paras d') (length (d_paras sample_doc)) =
    Some {| p_style := Some (lit "Title"); p_indent := None;
            p_runs := [plain_run (lit "Final")] |} /\
  d_title d' = Some (YStr (lit "Final")) /\
  length (d_paras d') = length (d_paras sample_doc) + 1 + 6 + 3.
Proof.
  destruct (extract_metadata sample_safe_load x_front_md) as [m0|e] eqn:Em;
    [|vm_compute in Em; discriminate].
  destruct (convert sample_safe_load sample_text sample_format sample_doc x_front_md)
    as [d'|e] eqn:Ec; [|vm_compute in Ec; discriminate].
  assert (Ht : dict_get (lit "Title") m0 = Some (YStr (lit "Final")))
    by (vm_compute in Em; injection Em as <-; reflexivity).
  exists m0, d'. split; [reflexivity|]. split; [exact Ht|]. split; [reflexivity|].
  exact (convert_front_matter_title sample_safe_load sample_text sample_format sample_doc
           x_front_md m0 (YStr (lit "Final")) d' Em Ht eq_refl Ec).
Defined.

(** ** [ensure_styles_exist] and [_create_style] *)

Lemma add_style_app (t t' : template) (sd : style_def) :
  add_style t sd = Ok t' ->
  t' = {| t_styles := t_styles t ++ [sd]; t_latent := t_latent t;
          t_word_document := t_word_document t |}.
Proof.
  unfold add_style. destruct (str_mem _ _); intros H; [discriminate|]. injection H as <-. reflexivity.
Qed.

Lemma create_style_added (t t' : template) (n : str) :
  create_style t n = Ok t' ->
  t_latent t' = t_latent t /\
  exists added, t_styles t' = t_styles t ++ added /\ forall sd, In sd added -> s_name sd = n.
Proof.
  intros H.
  assert (Hadd : forall sd, s_name sd = n -> add_style t sd = Ok t' ->
            t_latent t' = t_latent t /\
            exists added, t_styles t' = t_styles t ++ added /\ forall sd, In sd added -> s_name sd = n).
  { intros sd Hn Ha. apply add_style_app in Ha. subst t'. split; [reflexivity|].
    exists [sd]. split; [reflexivity|]. intros sd' [<-|[]]. exact Hn. }
  unfold create_style in H.
  destruct (startswith n (lit "Heading")).
  { destruct (nth_error (split_space n) 1) as [w|]; cbn [bind] in H; [|discriminate].
    destruct (py_int w) as [lv|]; cbn [bind] in H; [|discriminate].
    destruct (add_style t _) as [t1|e] eqn:Ea; cbn [bind] in H; [|discriminate].
    destruct (_ <? 0)%Z; [discriminate|]. injection H as <-.
    (eapply Hadd; [| exact Ea]; reflexivity). }
  destruct (startswith n (lit "Body Text")); [(eapply Hadd; [| exact H]; reflexivity)|].
  destruct (streq n (lit "Quote")); [(eapply Hadd; [| exact H]; reflexivity)|].
  destruct (streq n (lit "List Bullet")); [(eapply Hadd; [| exact H]; reflexivity)|].
  destruct (streq n (lit "List Number")); [(eapply Hadd; [| exact H]; reflexivity)|].
  destruct (streq n (lit "Code")); [(eapply Hadd; [| exact H]; reflexivity)|].
  injection H as <-. split; [reflexivity|]. exists []. split; [symmetry; apply app_nil_r | intros sd []].
Qed.

Lemma create_all_added (ns : list str) :
  forall t t', create_all t ns = Ok t' ->
  t_latent t' = t_latent t /\
  exists added, t_styles t' = t_styles t ++ added /\ forall sd, In sd added -> In (s_name sd) ns.
Proof.
  induction ns as [|n ns IH]; intros t t' H.
  - injection H as <-. split; [reflexivity|]. exists []. split; [symmetry; apply app_nil_r | intros sd []].
  - cbn [create_all] in H. destruct (create_style t n) as [t1|] eqn:E; cbn [bind] in H; [|discriminate].
    apply create_style_added in E as [Hl1 (a1 & Hs1 & Hn1)].
    apply IH in H as [Hl2 (a2 & Hs2 & Hn2)].
    split; [congruence|]. exists (a1 ++ a2). split; [rewrite Hs2, Hs1, app_assoc; reflexivity|].
    intros sd Hin. apply in_app_or in Hin as [Hin|Hin].
    + left. symmetry. apply Hn1, Hin.
    + right. apply Hn2, Hin.
Qed.

Lemma fs_update_same (fs : files) (p : str) (t : template) : fs_update fs p t p = Some t.
Proof. unfold fs_update. rewrite streq_refl. reflexivity. Qed.

Lemma ensure_ok_inv (st : detector) (fs fs' : files) (path p : str) :
  ensure_styles_exist st fs path = Ok (fs', p) ->
  exists t t', fs path = Some t /\ t_word_document t = true /\
    create_all t (missing_styles st t) = Ok t' /\
    fs' = fs_update fs (updated_path path) t' /\ p = updated_path path.
Proof.
  unfold ensure_styles_exist. destruct (fs path) as [t|]; intros H; [|discriminate].
  destruct (t_word_document t) eqn:Ew; cbn [negb] in H; [|discriminate H].
  destruct (create_all t (missing_styles st t)) as [t'|e] eqn:E; cbn [bind] in H; [|discriminate].
  injection H as <- <-. exists t, t'. repeat split; assumption || reflexivity.
Qed.

(** [ensure_styles_exist] keeps every style of the template as it was and
    its latent-style table, and only appends styles named in the missing
    list it computed. *)
Theorem ensure_keeps_styles (st : detector) (fs fs' : files) (path p : str) (t : template)
  (Ht : fs path = Some t)
  (H : ensure_styles_exist st fs path = Ok (fs', p)) :
  exists t' added, fs' p = Some t' /\ t_styles t' = t_styles t ++ added /\
    t_latent t' = t_latent t /\ forall sd, In sd added -> In (s_name sd) (missing_styles st t).
Proof.
  apply ensure_ok_inv in H as (t0 & t' & Ht0 & _ & E & -> & ->).
  rewrite Ht in Ht0. injection Ht0 as <-.
  apply create_all_added in E as [Hl (added & Hs & Hn)].
  exists t', added. split; [apply fs_update_same | split; [exact Hs | split; [exact Hl | exact Hn]]].
Qed.

Lemma ensure_keeps_styles_witness :
  exists fs' p, ensure_styles_exist (scan_markdown_styles new_detector x_latent_lines)
                  x_latent_files (lit "base.dotx") = Ok (fs', p) /\
  exists t' added, fs' p = Some t' /\ t_styles t' = t_styles x_latent_template ++ added /\
    t_latent t' = t_latent x_latent_template /\
    forall sd, In sd added -> In (s_name sd)
      (missing_styles (scan_markdown_styles new_detector x_latent_lines) x_latent_template).
Proof.
  destruct (ensure_styles_exist (scan_markdown_styles new_detector x_latent_lines)
              x_latent_files (lit "base.dotx")) as [[fs' p]|e] eqn:E;
    [|vm_compute in E; discriminate].
  exists fs', p. split; [reflexivity|].
  exact (ensure_keeps_styles (scan_markdown_styles new_detector x_latent_lines) x_latent_files fs' (lit "base.dotx") p x_latent_template eq_refl E).
Defined.

(** ** The path the updated template is saved to *)

Lemma replace_aux_absent (old new : str) (fuel : nat) :
  forall s, occurs old s = false -> replace_aux fuel old new s = s.
Proof.
  induction fuel as [|f IH]; intros s H; [reflexivity|].
  destruct s as [|c t]; [reflexivity|].
  cbn [occurs] in H. apply orb_false_iff in H as [H1 H2].
  cbn [replace_aux]. rewrite H1, (IH t H2). reflexivity.
Qed.

Lemma replace_aux_no_dot (o new rest : str) :
  forall s fuel, no_dot s = true ->
  replace_aux (length s + fuel) (lit "." ++ o) new (s ++ rest) = s ++ replace_aux fuel (lit "." ++ o) new rest.
Proof.
  induction s as [|c t IH]; intros fuel H; [reflexivity|].
  cbn [no_dot forallb] in H. apply andb_true_iff in H as [Hc Ht].
  cbn [length app Nat.add replace_aux].
  assert (Hs : startswith (c :: t ++ rest) (lit "." ++ o) = false).
  { cbn [lit list_ascii_of_string app startswith]. destruct (ceq "." c) eqn:E; [|reflexivity].
    apply ceq_spec in E. subst c. rewrite ceq_refl in Hc. discriminate. }
  rewrite Hs, (IH fuel Ht). reflexivity.
Qed.

Lemma updated_path_dotx (s : str) (H : no_dot s = true) :
  updated_path (s ++ lit ".dotx") = s ++ lit "_updated.dotx".
Proof.
  unfold updated_path, py_replace.
  rewrite length_app. change (length (lit ".dotx")) with 5.
  pose proof (replace_aux_no_dot (lit "dotx") (lit "_updated.dotx") (lit ".dotx") s 5 H) as E1.
  change (lit "." ++ lit "dotx") with (lit ".dotx") in E1. rewrite E1.
  change (replace_aux 5 (lit ".dotx") (lit "_updated.dotx") (lit ".dotx"))
    with (lit "_updated.dotx").
  rewrite length_app. change (length (lit "_updated.dotx")) with 13.
  pose proof (replace_aux_no_dot (lit "dotm") (lit "_updated.dotm") (lit "_updated.dotx") s 13 H) as E2.
  change (lit "." ++ lit "dotm") with (lit ".dotm") in E2. rewrite E2.
  reflexivity.
Qed.

Lemma updated_path_absent (s : str)
  (Hx : occurs (lit ".dotx") s = false) (Hm : occurs (lit ".dotm") s = false) :
  updated_path s = s.
Proof.
  unfold updated_path, py_replace. rewrite (replace_aux_absent _ _ _ s Hx).
  apply replace_aux_absent, Hm.
Qed.

(** For a template [name.dotx] whose name has no dot, the updated template
    is saved as [name_updated.dotx]: the returned path is that one, and the
    original [name.dotx] is left as it was on disk. *)
Theorem ensure_dotx_keeps_original (st : detector) (fs fs' : files) (s p : str)
  (Hs : no_dot s = true)
  (H : ensure_styles_exist st fs (s ++ lit ".dotx") = Ok (fs', p)) :
  p = s ++ lit "_updated.dotx" /\ fs' (s ++ lit ".dotx") = fs (s ++ lit ".dotx").
Proof.
  apply ensure_ok_inv in H as (t & t' & _ & _ & _ & -> & ->).
  rewrite (updated_path_dotx s Hs). split; [reflexivity|].
  unfold fs_update. destruct (streq (s ++ lit ".dotx") (s ++ lit "_updated.dotx")) eqn:E; [|reflexivity].
  apply streq_spec, app_inv_head in E. discriminate E.
Qed.

Lemma ensure_dotx_keeps_original_witness :
  exists fs' p, ensure_styles_exist (scan_markdown_styles new_detector x_latent_lines)
                  x_dotx_files (lit "report" ++ lit ".dotx") = Ok (fs', p) /\
  no_dot (lit "report") = true /\
  p = lit "report" ++ lit "_updated.dotx" /\
  fs' (lit "report" ++ lit ".dotx") = x_dotx_files (lit "report" ++ lit ".dotx").
Proof.
  destruct (ensure_styles_exist (scan_markdown_styles new_detector x_latent_lines)
              x_dotx_files (lit "report" ++ lit ".dotx")) as [[fs' p]|e] eqn:E;
    [|vm_compute in E; discriminate].
  exists fs', p. split; [reflexivity|]. split; [reflexivity|].
  exact (ensure_dotx_keeps_original (scan_markdown_styles new_detector x_latent_lines)
           x_dotx_files fs' (lit "report") p eq_refl E).
Defined.

(** A template path that contains neither [.dotx] nor [.dotm] (a [.docx]
    template, say) is returned unchanged, so the updated template is written
    over the original file. *)
Theorem ensure_overwrites_other_paths (st : detector) (fs fs' : files) (path p : str) (t : template)
  (Hx : occurs (lit ".dotx") path = false) (Hm : occurs (lit ".dotm") path = false)
  (Ht : fs path = Some t)
  (H : ensure_styles_exist st fs path = Ok (fs', p)) :
  p = path /\ exists t', fs' path = Some t' /\ t_latent t' = t_latent t /\
    exists added, t_styles t' = t_styles t ++ added.
Proof.
  apply ensure_ok_inv in H as (t0 & t' & Ht0 & _ & E & -> & ->).
  rewrite Ht in Ht0. injection Ht0 as <-.
  rewrite (updated_path_absent path Hx Hm). split; [reflexivity|].
  apply create_all_added in E as [Hl (added & Hs & _)].
  exists t'. split; [apply fs_update_same | split; [exact Hl | exists added; exact Hs]].
Qed.

Lemma ensure_overwrites_other_paths_witness :
  exists fs' p, ensure_styles_exist (scan_markdown_styles new_detector x_latent_lines)
                  x_docx_files (lit "base.docx") = Ok (fs', p) /\
  p = lit "base.docx" /\ exists t', fs' (lit "base.docx") = Some t' /\
    t_latent t' = t_latent x_latent_template /\
    exists added, t_styles t' = t_styles x_latent_template ++ added.
Proof.
  destruct (ensure_styles_exist (scan_markdown_styles new_detector x_latent_lines)
              x_docx_files (lit "base.docx")) as [[fs' p]|e] eqn:E;
    [|vm_compute in E; discriminate].
  exists fs', p. split; [reflexivity|].
  exact (ensure_overwrites_other_paths (scan_markdown_styles new_detector x_latent_lines)
           x_docx_files fs' (lit "base.docx") p x_latent_template eq_refl eq_refl eq_refl E).
Defined.

(** ** [_create_style] on a heading name: [int(str(n))] *)

Lemma digit_char_code (k : nat) (Hk : k < 10) : nat_of_ascii (ascii_of_nat (48 + k)) = 48 + k.
Proof. apply nat_ascii_embedding. lia. Qed.

Lemma is_digit_char (k : nat) (Hk : k < 10) : is_digit (ascii_of_nat (48 + k)) = true.
Proof.
  unfold is_digit. rewrite (digit_char_code k Hk).
  apply andb_true_iff. split; apply Nat.leb_le; lia.
Qed.

Lemma digit_val_char (k : nat) (Hk : k < 10) : digit_val (ascii_of_nat (48 + k)) = Z.of_nat k.
Proof. unfold digit_val. rewrite (digit_char_code k Hk). f_equal. lia. Qed.

Lemma digit_not_space (c : ascii) : is_digit c = true -> is_space c = false.
Proof.
  unfold is_digit, is_space. generalize (nat_of_ascii c) as k. intros k H.
  apply andb_true_iff in H as [H1 H2]. apply Nat.leb_le in H1, H2.
  replace (k <=? 13) with false by (symmetry; apply Nat.leb_gt; lia).
  replace (k <=? 32) with false by (symmetry; apply Nat.leb_gt; lia).
  replace (k =? 133) with false by (symmetry; apply Nat.eqb_neq; lia).
  replace (k =? 160) with false by (symmetry; apply Nat.eqb_neq; lia).
  rewrite !andb_false_r. reflexivity.
Qed.

Lemma digit_not_char (c d : ascii) : is_digit c = true -> is_digit d = false -> ceq c d = false.
Proof.
  intros Hc Hd. destruct (ceq c d) eqn:E; [|reflexivity].
  apply ceq_spec in E. subst d. rewrite Hc in Hd. discriminate.
Qed.

Lemma dec_aux_digits (f : nat) : forall n acc,
  forallb is_digit acc = true -> forallb is_digit (dec_aux f n acc) = true.
Proof.
  induction f as [|f IH]; intros n acc H; [exact H|].
  cbn [dec_aux].
  assert (Hd : forallb is_digit (ascii_of_nat (48 + n mod 10) :: acc) = true).
  { cbn [forallb]. rewrite is_digit_char, H; [reflexivity|]. apply Nat.mod_upper_bound. lia. }
  destruct (n <? 10); [exact Hd | apply IH, Hd].
Qed.

Lemma dec_aux_nonempty (f n : nat) (acc : str) : dec_aux (S f) n acc <> [].
Proof.
  revert n acc. induction f as [|f IH]; intros n acc; cbn [dec_aux].
  - destruct (n <? 10); discriminate.
  - destruct (n <? 10); [discriminate|]. apply IH.
Qed.

Lemma dec_aux_value (f : nat) : forall n acc, n < 10 ^ f ->
  fold_left digit_step (dec_aux f n acc) 0%Z = fold_left digit_step acc (Z.of_nat n).
Proof.
  induction f as [|f IH]; intros n acc Hn.
  - cbn in Hn. replace n with 0 by lia. reflexivity.
  - assert (Hm : n mod 10 < 10) by (apply Nat.mod_upper_bound; lia).
    cbn [dec_aux]. destruct (Nat.ltb_spec n 10) as [Hlt|Hge].
    + cbn [fold_left]. unfold digit_step at 2. rewrite (digit_val_char _ Hm).
      rewrite Nat.mod_small by exact Hlt. reflexivity.
    + rewrite IH.
      * cbn [fold_left]. unfold digit_step at 2. rewrite (digit_val_char _ Hm). f_equal.
        rewrite (Nat.div_mod_eq n 10) at 3. lia.
      * rewrite Nat.pow_succ_r' in Hn. apply Nat.Div0.div_lt_upper_bound. lia.
Qed.

Lemma py_str_nat_digits (n : nat) : forallb is_digit (py_str_nat n) = true.
Proof. apply dec_aux_digits. reflexivity. Qed.

Lemma py_str_nat_value (n : nat) : fold_left digit_step (py_str_nat n) 0%Z = Z.of_nat n.
Proof.
  unfold py_str_nat. rewrite dec_aux_value; [reflexivity|].
  apply (Nat.lt_trans _ (10 ^ n)); [apply Nat.pow_gt_lin_r; lia|].
  apply Nat.pow_lt_mono_r; lia.
Qed.

Lemma int_digits_all (ds : str) : forall acc,
  forallb is_digit ds = true -> int_digits ds acc false = Some (fold_left digit_step ds acc).
Proof.
  induction ds as [|c t IH]; intros acc H; [reflexivity|].
  cbn [forallb] in H. apply andb_true_iff in H as [Hc Ht].
  cbn [int_digits fold_left]. rewrite Hc. apply IH, Ht.
Qed.

Lemma lstrip_digits (s : str) : forallb is_digit s = true -> lstrip s = s.
Proof.
  destruct s as [|c t]; intros H; [reflexivity|].
  cbn [forallb] in H. apply andb_true_iff in H as [Hc _].
  cbn [lstrip]. rewrite (digit_not_space c Hc). reflexivity.
Qed.

Lemma forallb_rev {A} (p : A -> bool) (s : list A) : forallb p (rev s) = forallb p s.
Proof.
  induction s as [|x s IH]; [reflexivity|].
  cbn [rev forallb]. rewrite forallb_app, IH. cbn [forallb]. rewrite andb_true_r, andb_comm. reflexivity.
Qed.

Lemma strip_digits (s : str) : forallb is_digit s = true -> strip s = s.
Proof.
  intros H. unfold strip. rewrite (lstrip_digits s H), lstrip_digits, rev_involutive; [reflexivity|].
  rewrite forallb_rev. exact H.
Qed.

(** [int(str(n))] gives [n] back. *)
Lemma py_int_str_nat (n : nat) : py_int (py_str_nat n) = Ok (Z.of_nat n).
Proof.
  pose proof (py_str_nat_digits n) as Hd. pose proof (py_str_nat_value n) as Hv.
  assert (Hne : py_str_nat n <> []) by apply dec_aux_nonempty.
  unfold py_int. rewrite (strip_digits _ Hd).
  destruct (py_str_nat n) as [|c t] eqn:E; [contradiction|].
  assert (Hc : is_digit c = true) by (cbn [forallb] in Hd; apply andb_true_iff in Hd as [Hc _]; exact Hc).
  rewrite (digit_not_char c "-" Hc eq_refl), (digit_not_char c "+" Hc eq_refl), Hc.
  rewrite (int_digits_all _ 0%Z Hd), Hv. f_equal. lia.
Qed.

Lemma split_space_aux_plain (ds : str) : forall acc,
  forallb (fun c => negb (ceq c " ")) ds = true -> split_space_aux acc ds = [rev acc ++ ds].
Proof.
  induction ds as [|c t IH]; intros acc H; [rewrite app_nil_r; reflexivity|].
  cbn [forallb] in H. apply andb_true_iff in H as [Hc Ht]. apply negb_true_iff in Hc.
  cbn [split_space_aux]. rewrite Hc, (IH _ Ht). cbn [rev]. rewrite <- app_assoc. reflexivity.
Qed.

Lemma split_heading_style (n : nat) : nth_error (split_space (heading_style n)) 1 = Some (py_str_nat n).
Proof.
  assert (Hs : forallb (fun c => negb (ceq c " ")) (py_str_nat n) = true).
  { pose proof (py_str_nat_digits n) as Hd. induction (py_str_nat n) as [|c t IH]; [reflexivity|].
    cbn [forallb] in Hd |- *. apply andb_true_iff in Hd as [Hc Ht].
    rewrite (digit_not_char c " " Hc eq_refl), (IH Ht). reflexivity. }
  change (split_space (heading_style n)) with (lit "Heading" :: split_space_aux [] (py_str_nat n)).
  rewrite (split_space_aux_plain _ [] Hs). reflexivity.
Qed.

(** [_create_style] on [Heading n], a name the template does not define
    yet: up to level 8 it adds one bold, left-aligned style of that name
    whose font size is [16 - 2n] points, the other styles and the latent
    table staying as they were; from level 9 on the size would be negative
    and it raises [ValueError]. *)
Theorem create_heading_style (t : template) (n : nat)
  (Hnew : ~ In (heading_style n) (style_names t)) :
  create_style t (heading_style n) =
    (if n <=? 8 then
      Ok {| t_styles := t_styles t ++
              [{| s_name := heading_style n; s_bold := Some true; s_italic := None;
                  s_size_pt := Some (16 - Z.of_nat n * 2)%Z; s_font := None;
                  s_left_indent_pt := None; s_align_left := true |}];
            t_latent := t_latent t; t_word_document := t_word_document t |}
    else Err ValueError).
Proof.
  unfold create_style.
  replace (startswith (heading_style n) (lit "Heading")) with true by reflexivity.
  rewrite split_heading_style. cbn [bind]. rewrite py_int_str_nat. cbn [bind].
  unfold add_style. cbn [s_name]. apply str_mem_In' in Hnew. unfold style_names in Hnew.
  rewrite Hnew. cbn [bind].
  destruct (Nat.leb_spec n 8) as [Hle|Hgt]; destruct (Z.ltb_spec (16 - Z.of_nat n * 2) 0) as [Hz|Hz];
    solve [reflexivity | lia].
Qed.

Lemma create_heading_style_witness :
  ~ In (heading_style 3) (style_names x_latent_template) /\
  ~ In (heading_style 12) (style_names x_latent_template) /\
  create_style x_latent_template (heading_style 3) =
    Ok {| t_styles := t_styles x_latent_template ++
            [{| s_name := heading_style 3; s_bold := Some true; s_italic := None;
                s_size_pt := Some 10%Z; s_font := None;
                s_left_indent_pt := None; s_align_left := true |}];
          t_latent := t_latent x_latent_template; t_word_document := true |} /\
  create_style x_latent_template (heading_style 12) = Err ValueError.
Proof.
  assert (H3 : ~ In (heading_style 3) (style_names x_latent_template)).
  { cbn. intros [H|[]]. discriminate H. }
  assert (H12 : ~ In (heading_style 12) (style_names x_latent_template)).
  { cbn. intros [H|[]]. discriminate H. }
  split; [exact H3|]. split; [exact H12|]. split.
  - exact (create_heading_style x_latent_template 3 H3).
  - exact (create_heading_style x_latent_template 12 H12).
Defined.

(** ** Headings in [_parse_markdown_to_word] *)

Lemma take_hashes_le (k : nat) : forall s n r, take_hashes k s = (n, r) -> n <= k.
Proof.
  induction k as [|k IH]; intros s n r H; [cbn in H; injection H as <- _; lia|].
  destruct s as [|c t]; [cbn in H; injection H as <- _; lia|].
  cbn [take_hashes] in H. destruct (ceq c "#"); [|injection H as <- _; lia].
  destruct (take_hashes k t) as [n' r'] eqn:E. injection H as <- _.
  apply IH in E. lia.
Qed.

Lemma add_paragraph_paras (d d' : docx) (text : str) (style : option str) (ind : option nat) :
  add_paragraph d text style ind = Ok d' ->
  d_paras d' = d_paras d ++ [{| p_style := style; p_indent := ind;
                                p_runs := match text with [] => [] | _ => [plain_run text] end |}].
Proof.
  unfold add_paragraph. destruct style as [s|].
  - unfold check_style. destruct (str_mem s (d_styles d)); cbn [bind]; [|discriminate].
    intros H; injection H as <-. reflexivity.
  - cbn [bind]. intros H; injection H as <-. reflexivity.
Qed.

(** The heading pattern [#{1,6}] gives a level between 1 and 6. *)
Theorem heading_level_bounds (line t : str) (n : nat)
  (H : heading_match line = Some (n, t)) : 1 <= n <= 6.
Proof.
  unfold heading_match in H. destruct (take_hashes 6 line) as [k r] eqn:E.
  apply take_hashes_le in E. destruct k as [|k]; [discriminate|].
  injection H as <- _. lia.
Qed.

Lemma heading_level_bounds_witness :
  heading_match (lit "## Scope") = Some (2, lit "Scope") /\ 1 <= 2 <= 6.
Proof.
  split; [reflexivity|].
  exact (heading_level_bounds (lit "## Scope") (lit "Scope") 2 eq_refl).
Defined.

(** A line with seven or more leading [#] is still a level-6 heading:
    the pattern takes six of them and the rest stay in the heading text. *)
Theorem heading_extra_hashes (j : nat) (r : str) :
  heading_match (repeat "#"%char (7 + j) ++ r) =
    Some (6, take_line (repeat "#"%char (S j) ++ r)).
Proof. reflexivity. Qed.

(** A heading line ends the document built so far with a paragraph in the
    [Heading n] style, indented [n - 1] steps, holding the heading text as
    one plain run (no run when the text is empty); emphasis markers and
    inline code in a heading are not interpreted. *)
Theorem parse_markdown_heading (pre : list str) (h t : str) (n : nat) (d d' : docx)
  (H : parse_markdown_to_word (pre ++ [h]) d = Ok d')
  (Hh : heading_match (strip h) = Some (n, t)) :
  exists ps, d_paras d' = ps ++
    [{| p_style := Some (heading_style n); p_indent := Some (n - 1);
        p_runs := match t with [] => [] | _ => [plain_run t] end |}].
Proof.
  unfold parse_markdown_to_word in H. rewrite parse_lines_app in H.
  destruct (parse_lines pre _) as [[d1 c1]|e1] eqn:E; cbn [bind] in H; [|discriminate].
  cbn [parse_lines] in H.
  destruct (parse_line (d1, c1) h) as [[d2 c2]|e2] eqn:E2; cbn [bind] in H; [|discriminate].
  injection H as <-. cbn [fst].
  apply parse_line_cases in E2 as [(Hb & _) | [(n' & t' & Hh' & _ & _ & Ha) | (Hh' & _)]].
  - unfold nonblank in Hb. destruct (strip h); [discriminate | discriminate].
  - rewrite Hh in Hh'. injection Hh' as <- <-.
    apply add_paragraph_paras in Ha. rewrite Ha. eexists; reflexivity.
  - congruence.
Qed.

Lemma parse_markdown_heading_witness :
  heading_match (strip (lit "## **Scope** `x`")) = Some (2, lit "**Scope** `x`") /\
  exists d', parse_markdown_to_word x_heading_lines sample_doc = Ok d' /\
    exists ps, d_paras d' = ps ++
      [{| p_style := Some (heading_style 2); p_indent := Some 1;
          p_runs := [plain_run (lit "**Scope** `x`")] |}].
Proof.
  split; [reflexivity|].
  destruct (parse_markdown_to_word x_heading_lines sample_doc) as [d'|e] eqn:E;
    [|vm_compute in E; discriminate].
  exists d'. split; [reflexivity|].
  exact (parse_markdown_heading [lit "Intro"] (lit "## **Scope** `x`") (lit "**Scope** `x`") 2
           sample_doc d' E eq_refl).
Defined.

(** ** How [_extract_metadata] fails *)

(** A front matter that PyYAML rejects ([yaml.YAMLError]) is caught:
    [_extract_metadata] returns the seven defaults. *)
Theorem extract_metadata_yaml_error (safe_load : str -> load_result) (ls : list str)
  (Hy : safe_load (join_nl (collect_yaml false ls)) = YAMLError) :
  extract_metadata safe_load ls = Ok default_metadata.
Proof.
  unfold extract_metadata. destruct (collect_yaml false ls) as [|y ys]; [reflexivity|].
  rewrite Hy. reflexivity.
Qed.

Lemma extract_metadata_yaml_error_witness :
  sample_safe_load (join_nl (collect_yaml false x_bad_yaml_md)) = YAMLError /\
  extract_metadata sample_safe_load x_bad_yaml_md = Ok default_metadata.
Proof.
  assert (Hy : sample_safe_load (join_nl (collect_yaml false x_bad_yaml_md)) = YAMLError)
    by reflexivity.
  split; [exact Hy | exact (extract_metadata_yaml_error sample_safe_load x_bad_yaml_md Hy)].
Defined.


